(** * Message-segment conversion of nekro-agent

    A shallow embedding of [nekro_agent/systems/message/convertor.py]:
    the decoding of a OneBot wire message into [ChatMessageSegment]s
    ([convert_chat_message]), the rendering of a segment list as a prompt
    string ([convert_chat_message_to_prompt_str]) and the replay of a
    persisted record ([convert_raw_msg_data_json_to_msg_prompt]).

    A Python string is modelled as a Rocq [string], the sequence of the
    bytes of its UTF-8 encoding.  The payload of a
    wire segment is a dictionary from keys to strings or integers. *)

From Stdlib Require Import ZArith String Ascii DecimalString.
From stdpp Require Import gmap strings list.

Open Scope string_scope.
Open Scope list_scope.

(** ** Python values and string primitives *)

(** A value stored in the payload of a wire segment, [seg.data[key]]. *)
Inductive value : Type :=
  | VStr (s : string)
  | VInt (z : Z).

(** Python's [str(v)]. *)
Definition py_str (v : value) : string :=
  match v with
  | VStr s => s
  | VInt z => NilZero.string_of_int (Z.to_int z)
  end.

(** The exceptions the embedded code can raise or let through. *)
Inductive exn : Type :=
  | KeyError (key : string)
  | IndexError
  | AttributeError
  | TypeError
  | AssertionError
  | ValueError
  | JSONDecodeError
  | OtherError (what : string).

Inductive result (A : Type) : Type :=
  | Ok (a : A)
  | Raise (e : exn).
Arguments Ok {A} a.
Arguments Raise {A} e.

(** Sequencing of pure steps that may raise. *)
Definition result_bind {A B} (r : result A) (k : A -> result B) : result B :=
  match r with
  | Ok a => k a
  | Raise e => Raise e
  end.

Notation "'let?' x ':=' r 'in' k" := (result_bind r (fun x => k))
  (at level 10, x name, r at level 100, k at level 200).

Module PyStr.

(** The text holds ASCII characters only. *)
Fixpoint is_ascii (s : string) : bool :=
  match s with
  | EmptyString => true
  | String c rest => Nat.ltb (nat_of_ascii c) 128 && is_ascii rest
  end.

(** One ASCII character of [str.lower()]: [A]-[Z] become [a]-[z]. *)
Definition lower_char (c : ascii) : ascii :=
  let n := nat_of_ascii c in
  if Nat.leb 65 n && Nat.leb n 90 then ascii_of_nat (n + 32) else c.

(** [s.lower()] on an ASCII text. *)
Fixpoint lower_ascii (s : string) : string :=
  match s with
  | EmptyString => EmptyString
  | String c rest => String (lower_char c) (lower_ascii rest)
  end.

(** [s.lower()].  On a text with a character outside ASCII the result is
    given by the case mappings of the Unicode database of the
    interpreter, [unicode_lower]. *)
Definition lower (unicode_lower : string -> string) (s : string) : string :=
  if is_ascii s then lower_ascii s else unicode_lower s.

(** [s.split(sep)] for a one-character separator: never an empty list. *)
Fixpoint split (sep : ascii) (s : string) : list string :=
  match s with
  | EmptyString => [EmptyString]
  | String c rest =>
      if Ascii.eqb c sep then EmptyString :: split sep rest
      else match split sep rest with
           | [] => [String c EmptyString]
           | piece :: pieces => String c piece :: pieces
           end
  end.

(** [l[-1]]: the last item, [IndexError] on an empty list. *)
Definition last_item (l : list string) : result string :=
  match last l with
  | Some x => Ok x
  | None => Raise IndexError
  end.

(** [s.startswith(p)] *)
Definition startswith (p s : string) : bool := String.prefix p s.

(** [s[n:]] *)
Fixpoint drop (n : nat) (s : string) : string :=
  match n, s with
  | O, _ => s
  | S _, EmptyString => EmptyString
  | S n', String _ rest => drop n' rest
  end.

(** [c in s] for a character. *)
Fixpoint contains (c : ascii) (s : string) : bool :=
  match s with
  | EmptyString => false
  | String d rest => Ascii.eqb d c || contains c rest
  end.

End PyStr.

(** ** The wire message (nonebot's OneBot v11 adapter) *)

(** A wire segment: its kind tag [seg.type] and its payload [seg.data]. *)
Record MessageSegment : Type := mkMessageSegment {
  type : string;
  data : gmap string value;
}.

(** [ob_event]: a [GroupMessageEvent] (a subclass of [MessageEvent] that
    carries [group_id]) or any other [MessageEvent]. *)
Inductive Event : Type :=
  | MessageEvent (message : list MessageSegment)
  | GroupMessageEvent (group_id : Z) (message : list MessageSegment).

Definition message (ob_event : Event) : list MessageSegment :=
  match ob_event with
  | MessageEvent m => m
  | GroupMessageEvent _ m => m
  end.

(** The same event carrying another message. *)
Definition with_message (ob_event : Event) (m : list MessageSegment) : Event :=
  match ob_event with
  | MessageEvent _ => MessageEvent m
  | GroupMessageEvent group_id _ => GroupMessageEvent group_id m
  end.

(** ** The internal segments ([nekro_agent.schemas.chat_message]) *)

Inductive ChatMessageSegmentType : Type := TEXT | IMAGE | FILE | AT.

(** The class [ChatMessageSegment] and its three subclasses; every object
    carries [type] and [text], a subclass adds its own fields. *)
Inductive ChatMessageSegment : Type :=
  | ChatMessageSegmentBase (ty : ChatMessageSegmentType) (text : string)
  | ChatMessageSegmentImage (ty : ChatMessageSegmentType) (text : string)
      (file_name local_path remote_url : string)
  | ChatMessageSegmentFile (ty : ChatMessageSegmentType) (text : string)
      (file_name local_path : string)
  | ChatMessageSegmentAt (ty : ChatMessageSegmentType) (text : string)
      (target_qq target_nickname : string).

(** [nekro_agent.core.config.config], the two settings the convertor reads. *)
Record Config : Type := mkConfig {
  BOT_QQ : value;
  AI_CHAT_PRESET_NAME : string;
}.

(** What [logger.warning] records. *)
Inductive log_event : Type :=
  | ImageWithoutUrl (seg : MessageSegment).

(** ** Persisted records *)

(** The value [json.loads] returns. *)
#[local] Unset Elimination Schemes.
Inductive json : Type :=
  | JNull
  | JBool (b : bool)
  | JNum (z : Z)
  | JStr (s : string)
  | JArr (items : list json)
  | JObj (fields : gmap string json).
#[local] Set Elimination Schemes.

(** ** State and exceptions

    The convertor awaits its collaborators (downloads, file moves, group
    card look-ups) and logs warnings.  A computation takes the state before
    and returns the state after together with a value or a raised
    exception.  [W] is the state of the outside world the collaborators act
    on. *)

Record state (W : Type) : Type := mkState {
  world : W;
  warnings : list log_event;
}.
Arguments mkState {W} world warnings.
Arguments world {W} s.
Arguments warnings {W} s.

Definition M (W A : Type) : Type := state W -> state W * result A.

Definition ret {W A} (a : A) : M W A := fun st => (st, Ok a).

Definition raise {W A} (e : exn) : M W A := fun st => (st, Raise e).

Definition bind {W A B} (m : M W A) (k : A -> M W B) : M W B :=
  fun st =>
    match m st with
    | (st', Ok a) => k a st'
    | (st', Raise e) => (st', Raise e)
    end.

Notation "'let*' x ':=' m 'in' k" := (bind m (fun x => k))
  (at level 10, x name, m at level 100, k at level 200).
Notation "'let*' ' pat ':=' m 'in' k" :=
  (bind m (fun x => match x with pat => k end))
  (at level 10, pat pattern, m at level 100, k at level 200).

(** A value already computed, or the exception it raised. *)
Definition lift_result {W A} (r : result A) : M W A := fun st => (st, r).

(** [await f(...)]: a collaborator acts on the world only. *)
Definition await {W A} (f : W -> W * result A) : M W A :=
  fun st =>
    let '(w', r) := f (world st) in
    (mkState w' (warnings st), r).

(** [logger.warning(...)] *)
Definition logger_warning {W} (ev : log_event) : M W unit :=
  fun st => (mkState (world st) (warnings st ++ [ev]), Ok tt).

(** A [for] loop over [l] that updates the loop variables [acc]. *)
Fixpoint for_each {W A S} (body : S -> A -> M W S) (l : list A) (acc : S) : M W S :=
  match l with
  | [] => ret acc
  | x :: rest => let* acc' := body acc x in for_each body rest acc'
  end.

(** ** The convertor *)

Section Convertor.

Context {W : Type}.

(** The collaborators of the convertor; their code is outside this
    module.  The awaited ones act on the world and may raise. *)
Variable config : Config.
Variable download_file :
  value -> string -> W -> W * result (string * string).
Variable move_to_upload_dir :
  string -> string -> W -> W * result (string * string).
Variable get_user_group_card_name :
  Z -> string -> W -> W * result string.
Variable get_downloaded_prompt_file_path : string -> string.

(** The case mappings of [str.lower] outside ASCII. *)
Variable unicode_lower : string -> string.

(** [d[key]] *)
Definition getitem (d : gmap string value) (key : string) : result value :=
  match d !! key with
  | Some v => Ok v
  | None => Raise (KeyError key)
  end.

(** A payload value stored in a [str] field of a segment object, [text]
    or [remote_url]: the classes of [nekro_agent.schemas.chat_message]
    declare these fields as [str].  OneBot sends strings there; any other
    value is rejected when the object is built. *)
Definition as_str (v : value) : result string :=
  match v with
  | VStr s => Ok s
  | VInt _ => Raise TypeError
  end.

(** A payload value on which a [str] method ([split], [startswith]) is
    called: a value that is not a string has no such attribute. *)
Definition str_receiver (v : value) : result string :=
  match v with
  | VStr s => Ok s
  | VInt _ => Raise AttributeError
  end.

(** ["." + seg.data["file"].split(".")[-1].lower()], the body of the
    [try]. *)
Definition suffix_attempt (seg : MessageSegment) : result string :=
  let? file := getitem (data seg) "file" in
  let? file := str_receiver file in
  let? ext := PyStr.last_item (PyStr.split "." file) in
  Ok ("." +:+ PyStr.lower unicode_lower ext).

(** The [try ... except Exception: suffix = ""] around it. *)
Definition image_suffix (seg : MessageSegment) : string :=
  match suffix_attempt seg with
  | Ok suffix => suffix
  | Raise _ => ""
  end.

(** The synthetic or explicit mention of the agent itself. *)
Definition self_mention : ChatMessageSegment :=
  ChatMessageSegmentAt AT "" (py_str (BOT_QQ config))
    (AI_CHAT_PRESET_NAME config).

(** One turn of [for seg in ob_message], on the loop variables
    [(ret_list, is_tome)]. *)
Definition loop_body (ob_event : Event)
    (vars : list ChatMessageSegment * bool) (seg : MessageSegment)
    : M W (list ChatMessageSegment * bool) :=
  let '(ret_list, is_tome) := vars in
  if String.eqb (type seg) "text" then
    let* text := lift_result (as_str (default (VStr "") (data seg !! "text"))) in
    ret (ret_list ++ [ChatMessageSegmentBase TEXT text], is_tome)
  else if String.eqb (type seg) "image" then
    let suffix := image_suffix seg in
    match data seg !! "url" with
    | Some remote_url =>
        let* '(local_path, file_name) :=
          await (download_file remote_url suffix) in
        let* remote_url := lift_result (as_str remote_url) in
        ret (ret_list ++
               [ChatMessageSegmentImage IMAGE "" file_name local_path remote_url],
             is_tome)
    | None =>
        match data seg !! "file" with
        | Some file =>
            let* seg_local_path := lift_result (str_receiver file) in
            let seg_local_path :=
              if PyStr.startswith "file:" seg_local_path
              then PyStr.drop (String.length "file:") seg_local_path
              else seg_local_path in
            let* '(local_path, file_name) :=
              await (move_to_upload_dir seg_local_path suffix) in
            ret (ret_list ++
                   [ChatMessageSegmentImage IMAGE "" file_name local_path ""],
                 is_tome)
        | None =>
            let* _ := logger_warning (ImageWithoutUrl seg) in
            ret (ret_list, is_tome)
        end
    end
  else if String.eqb (type seg) "at" then
    match ob_event with
    | GroupMessageEvent group_id _ =>
        let* qq := lift_result (getitem (data seg) "qq") in
        let at_qq := py_str qq in
        let bot_qq := py_str (BOT_QQ config) in
        if String.eqb at_qq bot_qq then
          ret (ret_list ++
                 [ChatMessageSegmentAt AT "" bot_qq (AI_CHAT_PRESET_NAME config)],
               true)
        else
          let* nick_name :=
            await (get_user_group_card_name group_id at_qq) in
          ret (ret_list ++ [ChatMessageSegmentAt AT "" at_qq nick_name],
               is_tome)
    | MessageEvent _ => raise AssertionError
    end
  else if String.eqb (type seg) "file" then
    ret (ret_list, is_tome)
  else
    ret (ret_list, is_tome).

Definition convert_chat_message (ob_event : Event) (msg_to_me : bool)
    : M W (list ChatMessageSegment * bool) :=
  let ob_message := message ob_event in
  let* '(ret_list, is_tome) :=
    for_each (loop_body ob_event) ob_message ([], false) in
  if msg_to_me && negb is_tome then
    ret (ChatMessageSegmentAt AT "" (py_str (BOT_QQ config))
           (AI_CHAT_PRESET_NAME config) :: ret_list,
         is_tome)
  else
    ret (ret_list, is_tome).

(** The decoding loop of [convert_chat_message] on its initial
    variables. *)
Definition decoding_loop (ob_event : Event)
    : M W (list ChatMessageSegment * bool) :=
  for_each (loop_body ob_event) (message ob_event) ([], false).

(** The wire segment is a mention whose identifier, as a string, is the
    agent's own. *)
Definition mentions_self (seg : MessageSegment) : bool :=
  String.eqb (type seg) "at" &&
  match data seg !! "qq" with
  | Some qq => String.eqb (py_str qq) (py_str (BOT_QQ config))
  | None => false
  end.

(** The payload of the wire segment has what the turn of the loop reads
    from it, with the types it needs: a [text] that is a string if there
    is one, a [url] or else a [file] that is a string if there is one, a
    [qq] of any type. *)
Definition well_typed (seg : MessageSegment) : bool :=
  if String.eqb (type seg) "text" then
    match data seg !! "text" with
    | Some (VInt _) => false
    | _ => true
    end
  else if String.eqb (type seg) "image" then
    match data seg !! "url", data seg !! "file" with
    | Some (VStr _), _ => true
    | Some (VInt _), _ => false
    | None, Some (VInt _) => false
    | None, _ => true
    end
  else if String.eqb (type seg) "at" then
    bool_decide (is_Some (data seg !! "qq"))
  else true.

(** [emitted] is what a turn of the loop on [seg] appends. *)
Definition decoded_from (ob_event : Event) (seg : MessageSegment)
    (emitted : list ChatMessageSegment) : Prop :=
  length emitted <= 1 /\
  exists st st' found,
    loop_body ob_event ([], false) seg st = (st', Ok (emitted, found)).

(** What one turn of the loop of [convert_chat_message_to_prompt_str]
    appends to [prompt_str]; the [isinstance] tests are tried in the
    order of the source, the base class last. *)
Definition segment_prompt (one_time_code : string)
    (seg : ChatMessageSegment) : string :=
  match seg with
  | ChatMessageSegmentImage _ _ file_name _ _ =>
      "<" +:+ one_time_code +:+ " | Image:" +:+
      get_downloaded_prompt_file_path file_name +:+ ">"
  | ChatMessageSegmentFile _ _ file_name _ =>
      "<" +:+ one_time_code +:+ " | File:" +:+
      get_downloaded_prompt_file_path file_name +:+ ">"
  | ChatMessageSegmentAt _ _ target_qq target_nickname =>
      "<" +:+ one_time_code +:+ " | At:[@qq:" +:+ target_qq +:+
      ";nickname:" +:+ target_nickname +:+ "@]>"
  | ChatMessageSegmentBase _ text => text
  end.

Definition convert_chat_message_to_prompt_str
    (chat_message : list ChatMessageSegment) (one_time_code : string)
    : string :=
  fold_left (fun prompt_str seg => prompt_str +:+ segment_prompt one_time_code seg)
    chat_message "".

End Convertor.

(** ** Replay of a persisted record *)

Section RawRecord.

(** [get_downloaded_prompt_file_path] as above and the standard library's
    [json.loads], which raises on text that is not JSON. *)
Variable get_downloaded_prompt_file_path : string -> string.
Variable json_loads : string -> result json.

(** The tags of the persisted variants. *)
Definition known_tags : list string := ["text"; "image"; "file"; "at"].

(** A string field of a persisted segment object. *)
Definition field_str (fields : gmap string json) (key : string)
    : result string :=
  match fields !! key with
  | Some (JStr s) => Ok s
  | _ => Raise ValueError
  end.

(** Modelled from the spec: the decoding of one tagged segment object of
    a persisted record, part of [segments_from_list] in
    [nekro_agent.schemas.chat_message], which is not among the sources.
    The record is "a JSON array of tagged segment objects mirroring the
    internal variant set"; an unknown tag is a hard decoding error.  The
    field names are those of the segment classes. *)
Definition segment_from_dict (item : json) : result ChatMessageSegment :=
  match item with
  | JObj fields =>
      let? tag := field_str fields "type" in
      if String.eqb tag "text" then
        let? text := field_str fields "text" in
        Ok (ChatMessageSegmentBase TEXT text)
      else if String.eqb tag "image" then
        let? text := field_str fields "text" in
        let? file_name := field_str fields "file_name" in
        let? local_path := field_str fields "local_path" in
        let? remote_url := field_str fields "remote_url" in
        Ok (ChatMessageSegmentImage IMAGE text file_name local_path remote_url)
      else if String.eqb tag "file" then
        let? text := field_str fields "text" in
        let? file_name := field_str fields "file_name" in
        let? local_path := field_str fields "local_path" in
        Ok (ChatMessageSegmentFile FILE text file_name local_path)
      else if String.eqb tag "at" then
        let? text := field_str fields "text" in
        let? target_qq := field_str fields "target_qq" in
        let? target_nickname := field_str fields "target_nickname" in
        Ok (ChatMessageSegmentAt AT text target_qq target_nickname)
      else Raise ValueError
  | _ => Raise TypeError
  end.

(** Modelled from the spec: the items of a record are decoded in order,
    the first failure aborts the decoding. *)
Fixpoint segments_from_items (items : list json)
    : result (list ChatMessageSegment) :=
  match items with
  | [] => Ok []
  | item :: rest =>
      let? seg := segment_from_dict item in
      let? segs := segments_from_items rest in
      Ok (seg :: segs)
  end.

(** Modelled from the spec: [segments_from_list] of
    [nekro_agent.schemas.chat_message], which is not among the sources;
    it deserializes the JSON array of a persisted record into the ordered
    segment list. *)
Definition segments_from_list (record : json)
    : result (list ChatMessageSegment) :=
  match record with
  | JArr items => segments_from_items items
  | _ => Raise TypeError
  end.

Definition convert_raw_msg_data_json_to_msg_prompt
    (json_data one_time_code : string) : result string :=
  let? record := json_loads json_data in
  let? chat_message := segments_from_list record in
  Ok (convert_chat_message_to_prompt_str get_downloaded_prompt_file_path
        chat_message one_time_code).

(** An item of a record whose tag names no known variant. *)
Definition unknown_variant (item : json) : bool :=
  match item with
  | JObj fields =>
      match fields !! "type" with
      | Some (JStr tag) => negb (bool_decide (tag ∈ known_tags))
      | _ => false
      end
  | _ => false
  end.

(** The decoded content contains an unknown tagged variant. *)
Definition contains_unknown_variant (record : json) : bool :=
  match record with
  | JArr items => existsb unknown_variant items
  | _ => false
  end.

End RawRecord.

(** ** A sample deployment

    Concrete collaborators on which the model runs: the world counts the
    files stored so far, and a stored file is named after that count. *)

Module Sample.

Definition config : Config :=
  {| BOT_QQ := VInt 10001; AI_CHAT_PRESET_NAME := "Neko" |}.

Definition stored_name (w : nat) (suffix : string) : string :=
  "res" +:+ NilZero.string_of_uint (Nat.to_uint w) +:+ suffix.

Definition download_file (url : value) (use_suffix : string) (w : nat)
    : nat * result (string * string) :=
  if String.eqb (py_str url) "" then (w, Raise (OtherError "download failed"))
  else
    let file_name := stored_name w use_suffix in
    (S w, Ok ("/uploads/" +:+ file_name, file_name)).

Definition move_to_upload_dir (path use_suffix : string) (w : nat)
    : nat * result (string * string) :=
  let file_name := stored_name w use_suffix in
  (S w, Ok ("/uploads/" +:+ file_name, file_name)).

Definition get_user_group_card_name (group_id : Z) (user_id : string)
    (w : nat) : nat * result string :=
  (w, Ok ("member-" +:+ user_id)).

Definition get_downloaded_prompt_file_path (file_name : string) : string :=
  "/app/uploads/" +:+ file_name.

(** A stand-in for the case mappings outside ASCII that knows the letters
    of Latin-1: in UTF-8 these are [C3 80] to [C3 9E] without the
    multiplication sign [C3 97], and their lower case is 32 further. *)
Fixpoint unicode_lower (s : string) : string :=
  match s with
  | EmptyString => EmptyString
  | String c rest =>
      match rest with
      | String d rest' =>
          let n := nat_of_ascii d in
          if Nat.eqb (nat_of_ascii c) 195 && Nat.leb 128 n && Nat.leb n 158 &&
             negb (Nat.eqb n 151)
          then String c (String (ascii_of_nat (n + 32)) (unicode_lower rest'))
          else String (PyStr.lower_char c) (unicode_lower rest)
      | EmptyString => String (PyStr.lower_char c) EmptyString
      end
  end.

(** A stand-in for [json.loads] that knows two texts. *)
Definition json_loads (json_data : string) : result json :=
  if String.eqb json_data "[]" then Ok (JArr [])
  else if String.eqb json_data "[{type:video}]" then
    Ok (JArr [JObj {["type" := JStr "video"]}])
  else Raise JSONDecodeError.

Definition st0 : state nat := {| world := 0; warnings := [] |}.

(** A wire segment from its kind and the items of its payload. *)
Definition seg (kind : string) (items : list (string * value))
    : MessageSegment :=
  {| type := kind; data := list_to_map items |}.

Definition convert_chat_message :=
  convert_chat_message config download_file move_to_upload_dir
    get_user_group_card_name unicode_lower.

Definition loop_body :=
  loop_body config download_file move_to_upload_dir
    get_user_group_card_name unicode_lower.

End Sample.

(** * The commands ([nekro_agent/matchers/command.py])

    The commands this module models are those whose collaborators are plain
    calls: the guard every command starts with, the reading and setting of
    the configuration, the shell and container commands and the reset of
    the database.  [matcher.finish] is nonebot's: it sends its message, if
    it has one, and raises [FinishedException], which ends the handler. *)

Module Command.

(** ** Python values and string primitives *)

(** A value of the settings object, as the commands observe it: a number,
    a string, or an object of another class, of which they use the class
    name, the text [str] gives and the truth value.  [F] stands for
    Python's [float]. *)
Inductive pyvalue (F : Type) : Type :=
  | PNone
  | PBool (b : bool)
  | PInt (z : Z)
  | PFloat (f : F)
  | PStr (s : string)
  | POther (class_name shown : string) (truthy : bool).
Arguments PNone {F}.
Arguments PBool {F} b.
Arguments PInt {F} z.
Arguments PFloat {F} f.
Arguments PStr {F} s.
Arguments POther {F} class_name shown truthy.

(** The classes the commands test values against. *)
Inductive pyclass : Type := Cint | Cfloat | Cbool | Cstr.

(** [isinstance(v, cls)]; [bool] is a subclass of [int]. *)
Definition isinstance {F} (v : pyvalue F) (cls : pyclass) : bool :=
  match v, cls with
  | PBool _, (Cbool | Cint) => true
  | PInt _, Cint => true
  | PFloat _, Cfloat => true
  | PStr _, Cstr => true
  | _, _ => false
  end.

(** [isinstance(v, (cls1, cls2, ...))] *)
Definition isinstance_any {F} (v : pyvalue F) (classes : list pyclass) : bool :=
  existsb (isinstance v) classes.

(** The name of [type(v)]. *)
Definition class_name {F} (v : pyvalue F) : string :=
  match v with
  | PNone => "NoneType"
  | PBool _ => "bool"
  | PInt _ => "int"
  | PFloat _ => "float"
  | PStr _ => "str"
  | POther name _ _ => name
  end.

(** [str(type(v))] *)
Definition type_str {F} (v : pyvalue F) : string :=
  "<class '" +:+ class_name v +:+ "'>".

(** The line feed. *)
Definition LF : string := String "010"%char EmptyString.

(** The white space [str.strip] removes: the characters on which
    [str.isspace] holds.  A string is the sequence of the bytes of its
    UTF-8 encoding, so such a character is one, two or three bytes.

    One byte: U+0009 to U+000D, U+001C to U+001F and the space U+0020. *)
Definition is_space (c : ascii) : bool :=
  let n := nat_of_ascii c in
  (Nat.leb 9 n && Nat.leb n 13) || (Nat.leb 28 n && Nat.leb n 31) ||
  Nat.eqb n 32.

(** Two bytes: U+0085 ([C2 85]) and U+00A0 ([C2 A0]). *)
Definition is_space2 (a b : ascii) : bool :=
  Nat.eqb (nat_of_ascii a) 194 &&
  (Nat.eqb (nat_of_ascii b) 133 || Nat.eqb (nat_of_ascii b) 160).

(** Three bytes: U+1680 ([E1 9A 80]), U+2000 to U+200A ([E2 80 80] to
    [E2 80 8A]), U+2028, U+2029 and U+202F ([E2 80 A8], [E2 80 A9],
    [E2 80 AF]), U+205F ([E2 81 9F]) and U+3000 ([E3 80 80]). *)
Definition is_space3 (a b c : ascii) : bool :=
  let '(a, b, c) := (nat_of_ascii a, nat_of_ascii b, nat_of_ascii c) in
  (Nat.eqb a 225 && Nat.eqb b 154 && Nat.eqb c 128) ||
  (Nat.eqb a 226 && Nat.eqb b 128 &&
     ((Nat.leb 128 c && Nat.leb c 138) || Nat.eqb c 168 || Nat.eqb c 169 ||
      Nat.eqb c 175)) ||
  (Nat.eqb a 226 && Nat.eqb b 129 && Nat.eqb c 159) ||
  (Nat.eqb a 227 && Nat.eqb b 128 && Nat.eqb c 128).

(** [s.lstrip()]: the white space characters at the start are removed. *)
Fixpoint lstrip (s : string) : string :=
  match s with
  | EmptyString => EmptyString
  | String a rest1 =>
      if is_space a then lstrip rest1
      else match rest1 with
           | EmptyString => s
           | String b rest2 =>
               if is_space2 a b then lstrip rest2
               else match rest2 with
                    | EmptyString => s
                    | String c rest3 =>
                        if is_space3 a b c then lstrip rest3 else s
                    end
           end
  end.

(** [s.rstrip()]: the text is kept up to the point from which only white
    space characters follow. *)
Fixpoint rstrip (s : string) : string :=
  match s with
  | EmptyString => EmptyString
  | String c rest =>
      if String.eqb (lstrip s) "" then EmptyString
      else String c (rstrip rest)
  end.

(** [s.strip()] *)
Definition strip (s : string) : string := rstrip (lstrip s).

(** [s.split(sep, 1)]: the text before the first [sep] and the text after
    it, or [s] alone when it holds no [sep]. *)
Fixpoint split1 (sep : ascii) (s : string) : list string :=
  match s with
  | EmptyString => [EmptyString]
  | String c rest =>
      if Ascii.eqb c sep then [EmptyString; rest]
      else match split1 sep rest with
           | piece :: pieces => String c piece :: pieces
           | [] => [String c EmptyString]
           end
  end.

(** [s[:-n]] for [n > 0]. *)
Definition drop_last (n : nat) (s : string) : string :=
  String.substring 0 (String.length s - n) s.

(** [a or b] on strings. *)
Definition str_or (a b : string) : string :=
  if String.eqb a "" then b else a.

(** [l.remove(x)] on a list that holds [x]: the first [x] goes. *)
Fixpoint remove_first (x : string) (l : list string) : list string :=
  match l with
  | [] => []
  | y :: rest => if String.eqb y x then rest else y :: remove_first x rest
  end.

(** [x in l] *)
Definition str_in (x : string) (l : list string) : bool :=
  existsb (String.eqb x) l.

(** ** The settings *)

(** [nekro_agent.core.config.config] for the commands: the list of super
    users, and the other fields by name, in the order [model_dump] gives
    them.  The class of the settings is not among the sources; the object
    is taken to hold one value for each field, which [getattr] reads and
    [setattr] replaces as given. *)
Record Settings (F : Type) : Type := mkSettings {
  SUPER_USERS : list string;
  fields : list (string * pyvalue F);
}.
Arguments mkSettings {F} SUPER_USERS fields.
Arguments SUPER_USERS {F} s.
Arguments fields {F} s.

(** The first entry of a key. *)
Fixpoint assoc {A} (key : string) (l : list (string * A)) : option A :=
  match l with
  | [] => None
  | (k, v) :: rest => if String.eqb k key then Some v else assoc key rest
  end.

(** The first entry of a key given a new value. *)
Fixpoint assoc_set {A} (key : string) (v : A) (l : list (string * A))
    : list (string * A) :=
  match l with
  | [] => []
  | (k, old) :: rest =>
      if String.eqb k key then (k, v) :: rest
      else (k, old) :: assoc_set key v rest
  end.

(** ** State, outcomes and the monad of a handler *)

(** How a handler ends: it returns, [matcher.finish] ended it, or an
    exception escaped. *)
Inductive outcome (A : Type) : Type :=
  | Return (a : A)
  | Finished
  | Raised (e : exn).
Arguments Return {A} a.
Arguments Finished {A}.
Arguments Raised {A} e.

(** The state the commands act on: the outside world of the collaborators,
    the settings object, the module variable
    [DB_RESET_LATEST_TRIGGER_TIME], the number of readings of the clock so
    far, the warnings logged and the messages sent with [matcher.finish]. *)
Record state (W F T : Type) : Type := mkState {
  st_world : W;
  st_config : Settings F;
  DB_RESET_LATEST_TRIGGER_TIME : T;
  st_clock : nat;
  st_warnings : list string;
  st_outbox : list string;
}.
Arguments mkState {W F T}.
Arguments st_world {W F T} s.
Arguments st_config {W F T} s.
Arguments DB_RESET_LATEST_TRIGGER_TIME {W F T} s.
Arguments st_clock {W F T} s.
Arguments st_warnings {W F T} s.
Arguments st_outbox {W F T} s.

Definition C (W F T A : Type) : Type :=
  state W F T -> state W F T * outcome A.

Definition ret {W F T A} (a : A) : C W F T A := fun st => (st, Return a).

Definition raise {W F T A} (e : exn) : C W F T A := fun st => (st, Raised e).

Definition bind {W F T A B} (m : C W F T A) (k : A -> C W F T B)
    : C W F T B :=
  fun st =>
    match m st with
    | (st', Return a) => k a st'
    | (st', Finished) => (st', Finished)
    | (st', Raised e) => (st', Raised e)
    end.

Notation "'let!' x ':=' m 'in' k" := (bind m (fun x => k))
  (at level 10, x name, m at level 100, k at level 200).
Notation "'let!' ' pat ':=' m 'in' k" :=
  (bind m (fun x => match x with pat => k end))
  (at level 10, pat pattern, m at level 100, k at level 200).

(** A pure step that may raise. *)
Definition lift {W F T A} (r : result A) : C W F T A :=
  fun st => (st, match r with Ok a => Return a | Raise e => Raised e end).

(** A call of a collaborator, which acts on the world only. *)
Definition call {W F T A} (f : W -> W * result A) : C W F T A :=
  fun st =>
    let '(w', r) := f (st_world st) in
    (mkState w' (st_config st) (DB_RESET_LATEST_TRIGGER_TIME st)
       (st_clock st) (st_warnings st) (st_outbox st),
     match r with Ok a => Return a | Raise e => Raised e end).

(** [logger.warning(text)] *)
Definition logger_warning {W F T} (text : string) : C W F T unit :=
  fun st =>
    (mkState (st_world st) (st_config st) (DB_RESET_LATEST_TRIGGER_TIME st)
       (st_clock st) (st_warnings st ++ [text]) (st_outbox st),
     Return tt).

(** [await matcher.finish(message)]: the message, if there is one, is
    sent, and the handler ends. *)
Definition matcher_finish {W F T A} (message : option string) : C W F T A :=
  fun st =>
    (mkState (st_world st) (st_config st) (DB_RESET_LATEST_TRIGGER_TIME st)
       (st_clock st) (st_warnings st)
       (st_outbox st ++ match message with Some m => [m] | None => [] end),
     Finished).

(** The settings object. *)
Definition get_config {W F T} : C W F T (Settings F) :=
  fun st => (st, Return (st_config st)).

Definition set_config {W F T} (config : Settings F) : C W F T unit :=
  fun st =>
    (mkState (st_world st) config (DB_RESET_LATEST_TRIGGER_TIME st)
       (st_clock st) (st_warnings st) (st_outbox st),
     Return tt).

Definition get_trigger_time {W F T} : C W F T T :=
  fun st => (st, Return (DB_RESET_LATEST_TRIGGER_TIME st)).

Definition set_trigger_time {W F T} (t : T) : C W F T unit :=
  fun st =>
    (mkState (st_world st) (st_config st) t (st_clock st) (st_warnings st)
       (st_outbox st),
     Return tt).

(** The state with one component changed, for the statements about the
    handlers. *)
Definition with_world {W F T} (w : W) (st : state W F T) : state W F T :=
  mkState w (st_config st) (DB_RESET_LATEST_TRIGGER_TIME st) (st_clock st)
    (st_warnings st) (st_outbox st).

Definition with_config {W F T} (config : Settings F) (st : state W F T)
    : state W F T :=
  mkState (st_world st) config (DB_RESET_LATEST_TRIGGER_TIME st) (st_clock st)
    (st_warnings st) (st_outbox st).

Definition with_trigger_time {W F T} (t : T) (st : state W F T)
    : state W F T :=
  mkState (st_world st) (st_config st) t (st_clock st) (st_warnings st)
    (st_outbox st).

Definition ticked {W F T} (n : nat) (st : state W F T) : state W F T :=
  mkState (st_world st) (st_config st) (DB_RESET_LATEST_TRIGGER_TIME st)
    (n + st_clock st) (st_warnings st) (st_outbox st).

Definition warned {W F T} (text : string) (st : state W F T) : state W F T :=
  mkState (st_world st) (st_config st) (DB_RESET_LATEST_TRIGGER_TIME st)
    (st_clock st) (st_warnings st ++ [text]) (st_outbox st).

(** The state after [finish_with] sent [message]. *)
Definition answered {W F T} (message : string) (st : state W F T)
    : state W F T :=
  mkState (st_world st) (st_config st) (DB_RESET_LATEST_TRIGGER_TIME st)
    (st_clock st) (st_warnings st)
    (st_outbox st ++ ["[Opt Output] " +:+ message]).

(** ** The handlers *)

Section Handlers.

Context {W F T E ChatType : Type}.

(** The collaborators: the event's [get_user_id], the look-ups of
    [nekro_agent.tools.onebot_util], the sandbox, the system message
    queue, [os.system], [os.popen(...).read()], [reset_db] with its
    optional table name and [OsEnv.RUN_IN_DOCKER]. *)
Variable get_user_id : E -> string.
Variable get_user_name : E -> string -> W -> W * result string.
Variable get_chat_info : E -> W -> W * result (string * ChatType).
Variable limited_run_code : string -> string -> W -> W * result string.
Variable push_system_message : string -> string -> W -> W * result unit.
Variable os_system : string -> W -> W * result unit.
Variable os_popen_read : string -> W -> W * result string.
Variable reset_db : option string -> W -> W * result unit.
Variable RUN_IN_DOCKER : bool.

(** Python's [int(text)] and [float(text)], [str] and the truth value of
    a float, [str] of a list of strings, and the case mappings of
    [str.lower] outside ASCII. *)
Variable py_int : string -> result Z.
Variable py_float : string -> result F.
Variable float_str : F -> string.
Variable float_truthy : F -> bool.
Variable repr_list : list string -> string.
Variable unicode_lower : string -> string.

(** The clock: what the [n]-th reading of [time.time()] gives, and the
    test [now - last > 60] on two readings. *)
Variable time_at : nat -> T.
Variable over_a_minute : T -> T -> bool.

Abbreviation C := (Command.C W F T).

(** The truth value of a setting. *)
Definition truthy (v : pyvalue F) : bool :=
  match v with
  | PNone => false
  | PBool b => b
  | PInt z => negb (Z.eqb z 0)
  | PFloat f => float_truthy f
  | PStr s => negb (String.eqb s "")
  | POther _ _ t => t
  end.

(** [str(v)], as an f-string shows a setting. *)
Definition show (v : pyvalue F) : string :=
  match v with
  | PNone => "None"
  | PBool true => "True"
  | PBool false => "False"
  | PInt z => NilZero.string_of_int (Z.to_int z)
  | PFloat f => float_str f
  | PStr s => s
  | POther _ shown _ => shown
  end.

(** The attribute of the settings object of a given name, if it has one. *)
Definition attribute (config : Settings F) (key : string)
    : option (pyvalue F) :=
  if String.eqb key "SUPER_USERS" then
    Some (POther "list" (repr_list (SUPER_USERS config))
            (negb (Nat.eqb (length (SUPER_USERS config)) 0)))
  else assoc key (fields config).

(** [config.model_dump().get(key)] *)
Definition dump_get (config : Settings F) (key : string) : pyvalue F :=
  default PNone (attribute config key).

(** [getattr(config, key)] *)
Definition getattr (config : Settings F) (key : string)
    : result (pyvalue F) :=
  match attribute config key with
  | Some v => Ok v
  | None => Raise AttributeError
  end.

(** [setattr(config, key, v)] on a field of the settings. *)
Definition setattr (key : string) (v : pyvalue F) : C unit :=
  let! config := get_config in
  set_config (mkSettings (SUPER_USERS config) (assoc_set key v (fields config))).

(** [time.time()] *)
Definition time_time : C T :=
  fun st =>
    (mkState (st_world st) (st_config st) (DB_RESET_LATEST_TRIGGER_TIME st)
       (S (st_clock st)) (st_warnings st) (st_outbox st),
     Return (time_at (st_clock st))).

Definition finish_with {A} (message : string) : C A :=
  matcher_finish (Some ("[Opt Output] " +:+ message)).

(** [arg] is the plain text of the command's argument,
    [arg.extract_plain_text()]. *)
Definition command_guard (event : E) (arg : string)
    : C (string * string * string * ChatType) :=
  let! username := call (get_user_name event (get_user_id event)) in
  let! config := get_config in
  let! _ :=
    if negb (str_in (get_user_id event) (SUPER_USERS config)) then
      let! _ := logger_warning ("用户 " +:+ username +:+ " 不在允许用户中") in
      let! enabled :=
        lift (getattr config "ENABLE_COMMAND_UNAUTHORIZED_OUTPUT") in
      if truthy enabled then
        finish_with ("用户 [" +:+ get_user_id event +:+ "]" +:+ username +:+
                     " 不在允许用户中")
      else matcher_finish None
    else ret tt in
  let cmd_content := strip arg in
  let! '(chat_key, chat_type) := call (get_chat_info event) in
  ret (username, cmd_content, chat_key, chat_type).

(** The command [exec]. *)
Definition exec (event : E) (arg : string) : C unit :=
  let! '(username, cmd_content, chat_key, chat_type) :=
    command_guard event arg in
  let! result := call (limited_run_code cmd_content chat_key) in
  if negb (String.eqb result "") then finish_with result else ret tt.

(** The command [system]. *)
Definition system (event : E) (arg : string) : C unit :=
  let! '(username, cmd_content, chat_key, chat_type) :=
    command_guard event arg in
  let! _ := call (push_system_message chat_key cmd_content) in
  finish_with "系统消息添加成功".

(** The lines of [conf_show] for the keys it lists. *)
Fixpoint config_lines (config : Settings F) (keys : list string)
    : result (list string) :=
  match keys with
  | [] => Ok []
  | k :: rest =>
      let? v := getattr config k in
      let? lines := config_lines config rest in
      Ok (("- " +:+ k +:+ " (" +:+
           drop_last 2 (PyStr.drop 8 (type_str v)) +:+ ")") :: lines)
  end.

(** The keys [conf_show] collects in [modifiable_config_key]. *)
Definition modifiable_config_key (config : Settings F) : list string :=
  map fst
    (List.filter
       (fun '(k, v) => isinstance_any v [Cint; Cfloat; Cbool; Cstr])
       (fields config)).

(** The command [conf_show]. *)
Definition conf_show (event : E) (arg : string) : C unit :=
  let! '(username, cmd_content, chat_key, chat_type) :=
    command_guard event arg in
  let! config := get_config in
  if String.eqb cmd_content "" then
    let! lines := lift (config_lines config (modifiable_config_key config)) in
    finish_with ("当前支持动态修改配置：" +:+ LF +:+ String.concat LF lines)
  else
    if truthy (dump_get config cmd_content) then
      let! v := lift (getattr config cmd_content) in
      finish_with ("当前配置：" +:+ LF +:+ cmd_content +:+ "=" +:+ show v)
    else finish_with ("未知配置 `" +:+ cmd_content +:+ "`").

(** The body of the [try] of [conf_set]: the unpacking of the two pieces
    raises [ValueError] when there is one piece only. *)
Definition parse_assignment (cmd_content : string)
    : result (string * string) :=
  match split1 "=" (strip cmd_content) with
  | [key; value] =>
      if negb (String.eqb key "") && negb (String.eqb value "")
      then Ok (key, value)
      else Raise AssertionError
  | _ => Raise ValueError
  end.

(** [type(c_value)(value)]: the class of the old value applied to the
    text.  [conf_set] applies it to numbers and strings only. *)
Definition construct (c_value : pyvalue F) (value : string)
    : result (pyvalue F) :=
  match c_value with
  | PBool _ => Ok (PBool (negb (String.eqb value "")))
  | PInt _ => let? z := py_int value in Ok (PInt z)
  | PFloat _ => let? f := py_float value in Ok (PFloat f)
  | PStr _ => Ok (PStr value)
  | PNone | POther _ _ _ => Raise TypeError
  end.

(** The command [conf_set]. *)
Definition conf_set (event : E) (arg : string) : C unit :=
  let! '(username, cmd_content, chat_key, chat_type) :=
    command_guard event arg in
  match parse_assignment cmd_content with
  | Raise ValueError =>
      finish_with "参数错误，请使用 `conf_set key=value` 的格式"
  | Raise e => raise e
  | Ok (key, value) =>
      let! config := get_config in
      match dump_get config key with
      | PNone => finish_with ("未知配置: `" +:+ key +:+ "`")
      | _ =>
          let! c_value := lift (getattr config key) in
          let! _ :=
            if isinstance_any c_value [Cint; Cfloat] then
              let! v := lift (construct c_value value) in
              setattr key v
            else if isinstance_any c_value [Cbool] then
              if str_in (PyStr.lower unicode_lower value) ["true"; "1"; "yes"] then
                setattr key (PBool true)
              else if str_in (PyStr.lower unicode_lower value)
                        ["false"; "0"; "no"] then
                setattr key (PBool false)
              else
                finish_with ("布尔值只能是 `true` 或 `false`，请检查 `" +:+
                             key +:+ "` 的值")
            else if isinstance_any c_value [Cstr] then
              let! v := lift (construct c_value value) in
              setattr key v
            else
              finish_with ("不支持动态修改的配置类型 `" +:+
                           type_str c_value +:+ "`") in
          finish_with ("已设置 `" +:+ key +:+ "` 的值为 `" +:+ value +:+ "`")
      end
  end.

(** The command [docker_restart]. *)
Definition docker_restart (event : E) (arg : string) : C unit :=
  let! '(username, cmd_content, chat_key, chat_type) :=
    command_guard event arg in
  let! _ :=
    if negb RUN_IN_DOCKER then
      finish_with "当前环境不在 Docker 容器中，无法执行此操作"
    else ret tt in
  let container_name := str_or cmd_content "nekro_agent" in
  call (os_system ("docker restart " +:+ container_name)).

(** The command [docker_logs]. *)
Definition docker_logs (event : E) (arg : string) : C unit :=
  let! '(username, cmd_content, chat_key, chat_type) :=
    command_guard event arg in
  let! _ :=
    if negb RUN_IN_DOCKER then
      finish_with "当前环境不在 Docker 容器中，无法执行此操作"
    else ret tt in
  let lines_limit := "100" in
  let container_name := str_or cmd_content "nekro_agent" in
  let! logs :=
    call (os_popen_read ("docker logs " +:+ container_name +:+ " --tail " +:+
                         lines_limit)) in
  finish_with ("容器日志: " +:+ LF +:+ logs).

(** The command [sh]. *)
Definition sh (event : E) (arg : string) : C unit :=
  let! '(username, cmd_content, chat_key, chat_type) :=
    command_guard event arg in
  let! outputs := call (os_popen_read cmd_content) in
  finish_with ("命令 `" +:+ cmd_content +:+ "` 输出: " +:+ LF +:+
               str_or outputs "<Empty>").

(** The command [nekro_db_reset]. *)
Definition nekro_db_reset (event : E) (arg : string) : C unit :=
  let! '(username, cmd_content, chat_key, chat_type) :=
    command_guard event arg in
  let args := PyStr.split " " cmd_content in
  let! now := time_time in
  let! latest := get_trigger_time in
  if over_a_minute now latest then
    let! now := time_time in
    let! _ := set_trigger_time now in
    finish_with
      "正在准备执行数据库重置操作！确认继续重置请在 1 分钟内再次使用本命令并使用 `-y` 参数确认"
  else
    if str_in "-y" args then
      let args := remove_first "-y" args in
      let! _ :=
        if Nat.ltb 1 (length args) then finish_with "参数不合法" else ret tt in
      match args with
      | [table] =>
          let! _ := call (reset_db (Some table)) in
          finish_with ("数据表 `" +:+ table +:+ "` 重置完成")
      | _ =>
          let! _ := call (reset_db None) in
          finish_with "数据库重置完成"
      end
    else finish_with "请使用 `-y` 参数确认重置数据库".

(** The modelled commands under the names and aliases [on_command]
    registers them with. *)
Definition commands : list (string * (E -> string -> C unit)) :=
  [("exec", exec); ("system", system);
   ("conf_show", conf_show); ("conf-show", conf_show);
   ("conf_set", conf_set); ("conf-set", conf_set);
   ("docker_restart", docker_restart); ("docker-restart", docker_restart);
   ("docker_logs", docker_logs); ("docker-logs", docker_logs);
   ("sh", sh);
   ("nekro_db_reset", nekro_db_reset); ("nekro-db-reset", nekro_db_reset)].

End Handlers.

End Command.

(** ** A sample deployment of the commands

    The world is the list of the calls made to the outside, the latest
    last; an event is the identifier of its sender; the clock counts
    seconds, the [n]-th reading giving [1000 + 10 * n]; a float is stood
    for by an integer number of thousandths. *)

Module CommandSample.

Import Command.

Definition get_user_id (event : string) : string := event.

Definition get_user_name (event user_id : string) (w : list string)
    : list string * result string :=
  (w, Ok ("user-" +:+ user_id)).

Definition get_chat_info (event : string) (w : list string)
    : list string * result (string * bool) :=
  (w, Ok ("group_7", true)).

Definition limited_run_code (code chat_key : string) (w : list string)
    : list string * result string :=
  (w ++ ["run " +:+ code], Ok "").

Definition push_system_message (chat_key text : string) (w : list string)
    : list string * result unit :=
  (w ++ ["system message " +:+ text], Ok tt).

Definition os_system (cmd : string) (w : list string)
    : list string * result unit :=
  (w ++ ["os.system " +:+ cmd], Ok tt).

Definition os_popen_read (cmd : string) (w : list string)
    : list string * result string :=
  (w ++ ["os.popen " +:+ cmd], Ok "").

Definition reset_db (table : option string) (w : list string)
    : list string * result unit :=
  (w ++ ["reset_db " +:+ default "*" table], Ok tt).

(** A stand-in for [int]: one digit. *)
Definition py_int (text : string) : result Z :=
  if String.eqb text "0" then Ok 0%Z
  else if String.eqb text "1" then Ok 1%Z
  else if String.eqb text "2" then Ok 2%Z
  else Raise ValueError.

Definition py_float (text : string) : result Z :=
  if String.eqb text "0.5" then Ok 500%Z else Raise ValueError.

Definition float_str (f : Z) : string := "0.5".

Definition float_truthy (f : Z) : bool := negb (Z.eqb f 0).

Definition repr_list (l : list string) : string :=
  "[" +:+ String.concat ", " l +:+ "]".

Definition time_at (n : nat) : Z := (1000 + 10 * Z.of_nat n)%Z.

Definition over_a_minute (now latest : Z) : bool := (60 <? now - latest)%Z.

Definition config : Settings Z :=
  {| SUPER_USERS := ["100"];
     fields :=
       [("AI_CHAT_PRESET_NAME", PStr "Neko");
        ("ENABLE_COMMAND_UNAUTHORIZED_OUTPUT", PBool false);
        ("AI_DEBOUNCE_WAIT_SECONDS", PInt 0);
        ("SANDBOX_RUNNING_TIMEOUT", PInt 60);
        ("MODEL_GROUPS", POther "dict" "{}" false)] |}.

(** The state after the start of the program. *)
Definition st0 : state (list string) Z Z :=
  {| st_world := []; st_config := config;
     DB_RESET_LATEST_TRIGGER_TIME := 0%Z; st_clock := 0;
     st_warnings := []; st_outbox := [] |}.

Definition command_guard :=
  command_guard get_user_id get_user_name get_chat_info float_truthy
    repr_list (T := Z).

Definition conf_show :=
  conf_show get_user_id get_user_name get_chat_info float_str float_truthy
    repr_list (T := Z).

Definition conf_set :=
  conf_set get_user_id get_user_name get_chat_info py_int py_float
    float_truthy repr_list Sample.unicode_lower (T := Z).

Definition sh :=
  sh get_user_id get_user_name get_chat_info os_popen_read float_truthy
    repr_list (F := Z) (T := Z).

Definition docker_restart (in_docker : bool) :=
  docker_restart get_user_id get_user_name get_chat_info os_system in_docker
    float_truthy repr_list (F := Z) (T := Z).

Definition nekro_db_reset :=
  nekro_db_reset get_user_id get_user_name get_chat_info reset_db
    float_truthy repr_list time_at over_a_minute (F := Z).

End CommandSample.

(** ** Wire segments by what the loop does with them *)

(** The text of a wire segment of kind [text], when it is a string; a
    segment without a [text] entry carries the empty text. *)
Definition plain_text (seg : MessageSegment) : option string :=
  if String.eqb (type seg) "text" then
    match default (VStr "") (data seg !! "text") with
    | VStr s => Some s
    | VInt _ => None
    end
  else None.

(** An image segment with neither [url] nor [file]. *)
Definition sourceless_image (seg : MessageSegment) : bool :=
  String.eqb (type seg) "image" &&
  match data seg !! "url", data seg !! "file" with
  | None, None => true
  | _, _ => false
  end.

(** * Properties *)

(** ** The loop of [convert_chat_message] *)

Section ConvertorFacts.

Context {W : Type}.
Variable config : Config.
Variable download_file :
  value -> string -> W -> W * result (string * string).
Variable move_to_upload_dir :
  string -> string -> W -> W * result (string * string).
Variable get_user_group_card_name :
  Z -> string -> W -> W * result string.
Variable unicode_lower : string -> string.

Abbreviation image_suffix := (image_suffix unicode_lower).
Abbreviation loop_body :=
  (loop_body config download_file move_to_upload_dir get_user_group_card_name
     unicode_lower).
Abbreviation convert_chat_message :=
  (convert_chat_message config download_file move_to_upload_dir
     get_user_group_card_name unicode_lower).
Abbreviation decoding_loop :=
  (decoding_loop config download_file move_to_upload_dir
     get_user_group_card_name unicode_lower).
Abbreviation decoded_from :=
  (decoded_from config download_file move_to_upload_dir
     get_user_group_card_name unicode_lower).
Abbreviation mentions_self := (mentions_self config).
Abbreviation self_mention := (self_mention config).

Ltac run_monad :=
  unfold bind, lift_result, await, ret, raise, logger_warning, result_bind.

(** A turn of the loop only appends to [ret_list] and only raises
    [is_tome]: it is the turn on fresh variables, put after the old
    ones. *)
Lemma loop_body_frame ob_event ret_list is_tome seg st :
  loop_body ob_event (ret_list, is_tome) seg st =
  let '(st', res) := loop_body ob_event ([], false) seg st in
  (st', match res with
        | Ok (emitted, found) => Ok (ret_list ++ emitted, is_tome || found)
        | Raise e => Raise e
        end).
Proof.
  unfold loop_body. run_monad.
  repeat case_match; simplify_eq/=;
    rewrite ?app_nil_r, ?orb_false_r, ?orb_true_r; done.
Qed.

Lemma for_each_app {A S} (body : S -> A -> M W S) xs ys acc st :
  for_each body (xs ++ ys) acc st =
  (let* acc' := for_each body xs acc in for_each body ys acc') st.
Proof.
  revert acc st. induction xs as [|x xs IH]; intros acc st; simpl.
  - reflexivity.
  - unfold bind in *. destruct (body acc x st) as [st1 [acc1|e]].
    + apply IH.
    + reflexivity.
Qed.

(** A turn of the loop emits no segment or one. *)
Lemma loop_body_emits_at_most_one ob_event seg st st' emitted found :
  loop_body ob_event ([], false) seg st = (st', Ok (emitted, found)) ->
  length emitted <= 1.
Proof.
  unfold loop_body. run_monad. intros H.
  repeat case_match; simplify_eq/=; lia.
Qed.

(** A turn of the loop raises [is_tome] exactly on a mention of the agent. *)
Lemma loop_body_found ob_event seg st st' emitted found :
  loop_body ob_event ([], false) seg st = (st', Ok (emitted, found)) ->
  found = mentions_self seg.
Proof.
  unfold loop_body, mentions_self, getitem. run_monad. intros H.
  repeat case_match; simplify_eq/=; try done;
    repeat match goal with
           | H : String.eqb (type _) _ = true |- _ =>
               apply String.eqb_eq in H; rewrite H
           end; done.
Qed.

(** A completed loop has appended, wire segment after wire segment, what
    each turn emitted, and has raised [is_tome] if one of them mentioned
    the agent. *)
Lemma for_each_loop_body ob_event msg ret_list is_tome st st' ret_list' is_tome' :
  for_each (loop_body ob_event) msg (ret_list, is_tome) st =
    (st', Ok (ret_list', is_tome')) ->
  exists outs,
    Forall2 (decoded_from ob_event) msg outs /\
    ret_list' = ret_list ++ concat outs /\
    is_tome' = is_tome || existsb mentions_self msg.
Proof.
  revert ret_list is_tome st.
  induction msg as [|seg msg IH]; intros ret_list is_tome st; cbn [for_each].
  - unfold ret. intros [= <- <- <-]. exists [].
    rewrite app_nil_r, orb_false_r. repeat split. constructor.
  - unfold bind. rewrite loop_body_frame.
    destruct (loop_body ob_event ([], false) seg st)
      as [st1 [[emitted found]|e]] eqn:Hturn; [|discriminate].
    intros Hrest. apply IH in Hrest as (outs & Houts & -> & ->).
    exists (emitted :: outs). split; [|split].
    + constructor; [|exact Houts]. split.
      * eapply loop_body_emits_at_most_one, Hturn.
      * eauto.
    + simpl. by rewrite app_assoc.
    + rewrite (loop_body_found _ _ _ _ _ _ Hturn). cbn [existsb].
      by rewrite orb_assoc.
Qed.

(** [convert_chat_message] is its loop followed by the insertion of the
    synthetic mention. *)
Lemma convert_chat_message_unfold ob_event msg_to_me st :
  convert_chat_message ob_event msg_to_me st =
  match decoding_loop ob_event st with
  | (st', Ok (ret_list, is_tome)) =>
      (st', Ok (if msg_to_me && negb is_tome
                then self_mention :: ret_list
                else ret_list, is_tome))
  | (st', Raise e) => (st', Raise e)
  end.
Proof.
  unfold convert_chat_message, decoding_loop, self_mention, bind, ret.
  destruct (for_each _ _ _ st) as [st' [[ret_list is_tome]|e]]; [|done].
  by destruct (msg_to_me && negb is_tome).
Qed.

(** The flag a completed loop returns. *)
Lemma decoding_loop_flag ob_event st st' ret_list is_tome :
  decoding_loop ob_event st = (st', Ok (ret_list, is_tome)) ->
  is_tome = existsb mentions_self (message ob_event).
Proof.
  intros H. apply for_each_loop_body in H as (_ & _ & _ & ->). done.
Qed.

(** ** Synthetic mention (C2) and order (C3) *)

(** What the code returns when [msg_to_me] is true and no wire segment
    mentions the agent: it returns exactly when its decoding loop
    completes, the returned list is the decoded list with a mention of the
    agent put first, whose [target_qq] is [str(BOT_QQ)] and whose
    [target_nickname] is [AI_CHAT_PRESET_NAME], and the returned flag is
    [is_tome] as the loop left it, which is false: the insertion does not
    assign it. *)
Lemma convert_chat_message_synthetic_mention ob_event st :
  existsb mentions_self (message ob_event) = false ->
  forall st' segs flag,
    convert_chat_message ob_event true st = (st', Ok (segs, flag)) <->
    exists ret_list is_tome,
      decoding_loop ob_event st = (st', Ok (ret_list, is_tome)) /\
      segs = ChatMessageSegmentAt AT "" (py_str (BOT_QQ config))
               (AI_CHAT_PRESET_NAME config) :: ret_list /\
      flag = false.
Proof.
  intros Hnone st' segs flag. rewrite convert_chat_message_unfold.
  destruct (decoding_loop ob_event st) as [st1 [[ret_list is_tome]|e]] eqn:Hloop.
  - pose proof (decoding_loop_flag _ _ _ _ _ Hloop) as Hflag.
    rewrite Hnone in Hflag. subst is_tome. simpl. split.
    + intros [= <- <- <-]. eauto.
    + intros (r & t & [= <- <- <-] & -> & ->). reflexivity.
  - split; [discriminate|]. intros (r & t & [=] & _).
Qed.

(** C2: when a wire segment mentions the agent, [convert_chat_message]
    returns what its decoding loop produced, with nothing added, whatever
    [msg_to_me] is; and any call returns either what the loop produced or
    that list with the one synthetic mention put first. *)
Theorem convert_chat_message_self_mention_dedup ob_event msg_to_me st :
  (existsb mentions_self (message ob_event) = true ->
   convert_chat_message ob_event msg_to_me st = decoding_loop ob_event st) /\
  (convert_chat_message ob_event msg_to_me st = decoding_loop ob_event st \/
   exists st' ret_list,
     decoding_loop ob_event st = (st', Ok (ret_list, false)) /\
     convert_chat_message ob_event msg_to_me st =
       (st', Ok (self_mention :: ret_list, false))).
Proof.
  rewrite convert_chat_message_unfold.
  destruct (decoding_loop ob_event st) as [st1 [[ret_list is_tome]|e]] eqn:Hloop.
  - pose proof (decoding_loop_flag _ _ _ _ _ Hloop) as Hflag. split.
    + intros Hsome. rewrite Hsome in Hflag. subst is_tome.
      by rewrite andb_false_r.
    + destruct msg_to_me, is_tome; simpl; eauto.
  - split; [done|by left].
Qed.

(** C3: the list [convert_chat_message] returns is, after the synthetic
    mention if one was put first, the concatenation in wire order of what
    the turns of the loop emitted, none or one segment for each wire
    segment. *)
Theorem convert_chat_message_preserves_order ob_event msg_to_me st st' segs flag :
  convert_chat_message ob_event msg_to_me st = (st', Ok (segs, flag)) ->
  exists outs,
    Forall2 (decoded_from ob_event) (message ob_event) outs /\
    (segs = concat outs \/ segs = self_mention :: concat outs).
Proof.
  rewrite convert_chat_message_unfold.
  destruct (decoding_loop ob_event st) as [st1 [[ret_list is_tome]|e]] eqn:Hloop;
    [|discriminate].
  intros [= <- <- <-].
  apply for_each_loop_body in Hloop as (outs & Houts & -> & _).
  exists outs. split; [exact Houts|].
  destruct (msg_to_me && negb is_tome); simpl; auto.
Qed.

(** ** When the conversion returns *)

Section Returns.

(** The collaborators do not raise. *)
Hypothesis download_file_returns :
  forall url suffix w,
    exists w' r, download_file (VStr url) suffix w = (w', Ok r).
Hypothesis move_to_upload_dir_returns :
  forall path suffix w, exists w' r, move_to_upload_dir path suffix w = (w', Ok r).
Hypothesis get_user_group_card_name_returns :
  forall group_id user_id w,
    exists w' r, get_user_group_card_name group_id user_id w = (w', Ok r).

Lemma loop_body_returns group_id msg vars seg st :
  well_typed seg = true ->
  exists st' vars',
    loop_body (GroupMessageEvent group_id msg) vars seg st = (st', Ok vars').
Proof.
  destruct vars as [ret_list is_tome].
  unfold well_typed, loop_body, getitem. run_monad. intros Hseg.
  repeat case_match; simplify_eq/=; eauto;
    try match goal with
        | H : bool_decide (is_Some None) = true |- _ =>
            by apply bool_decide_eq_true, is_Some_None in H
        end;
    repeat match goal with
           | H : download_file (VStr ?u) ?x ?w = (_, Raise _) |- _ =>
               destruct (download_file_returns u x w) as (? & ? & ?); congruence
           | H : move_to_upload_dir ?u ?x ?w = (_, Raise _) |- _ =>
               destruct (move_to_upload_dir_returns u x w) as (? & ? & ?); congruence
           | H : get_user_group_card_name ?g ?u ?w = (_, Raise _) |- _ =>
               destruct (get_user_group_card_name_returns g u w) as (? & ? & ?);
               congruence
           end.
Qed.

(** In a group, on a message whose payloads are well typed, and with
    collaborators that do not raise, the conversion returns. *)
Lemma convert_chat_message_returns group_id msg msg_to_me st :
  forallb well_typed msg = true ->
  exists st' segs flag,
    convert_chat_message (GroupMessageEvent group_id msg) msg_to_me st =
      (st', Ok (segs, flag)).
Proof.
  intros Hmsg. rewrite convert_chat_message_unfold. unfold decoding_loop.
  cbn [message]. generalize (@nil ChatMessageSegment, false).
  generalize msg at 1 as whole. intros whole. revert st.
  induction msg as [|seg rest IH]; intros st vars; cbn [for_each].
  - unfold ret. destruct vars as [ret_list is_tome]. eauto.
  - apply andb_prop in Hmsg as [Hseg Hrest]. unfold bind.
    destruct (loop_body_returns group_id whole vars seg st Hseg)
      as (st1 & vars1 & ->).
    by apply IH.
Qed.

End Returns.

(** ** Dropped segments (C4) *)

(** The loop reads the world, never the log, and only appends to the log. *)
Lemma loop_body_log ob_event vars seg w :
  exists w' added r, forall l,
    loop_body ob_event vars seg (mkState w l) = (mkState w' (l ++ added), r).
Proof.
  destruct vars as [ret_list is_tome]. unfold loop_body. run_monad. cbn.
  repeat case_match; simplify_eq/=;
    repeat match goal with
           | |- context [download_file ?u ?x w] =>
               destruct (download_file u x w) as [? [[? ?]|?]]
           | |- context [move_to_upload_dir ?u ?x w] =>
               destruct (move_to_upload_dir u x w) as [? [[? ?]|?]]
           | |- context [get_user_group_card_name ?g ?u w] =>
               destruct (get_user_group_card_name g u w) as [? [?|?]]
           end;
    first [ by eexists _, [], _; intros l; rewrite app_nil_r
          | by eexists _, [_], _ ].
Qed.

Lemma for_each_log ob_event msg vars w :
  exists w' added r, forall l,
    for_each (loop_body ob_event) msg vars (mkState w l) =
      (mkState w' (l ++ added), r).
Proof.
  revert vars w. induction msg as [|seg msg IH]; intros vars w; cbn [for_each].
  - exists w, [], (Ok vars). intros l. by rewrite app_nil_r.
  - destruct (loop_body_log ob_event vars seg w) as (w1 & a1 & r1 & Hturn).
    destruct r1 as [vars1|e].
    + destruct (IH vars1 w1) as (w2 & a2 & r2 & Hrest).
      exists w2, (a1 ++ a2), r2. intros l. unfold bind.
      by rewrite Hturn, Hrest, app_assoc.
    + exists w1, a1, (Raise e). intros l. unfold bind. by rewrite Hturn.
Qed.

(** The event matters to the loop only through its kind and group. *)
Lemma loop_body_with_message ob_event m :
  loop_body (with_message ob_event m) = loop_body ob_event.
Proof. by destruct ob_event. Qed.

(** A wire segment on which the loop only logs [added] can be taken out
    of the message: the result and the world are the same, and the log of
    a completed loop has [added] at the place of the segment. *)
Lemma for_each_skip ob_event before seg after added vars st :
  (forall vars st,
     loop_body ob_event vars seg st =
       (mkState (world st) (warnings st ++ added), Ok vars)) ->
  let with_seg := for_each (loop_body ob_event) (before ++ seg :: after) vars st in
  let without := for_each (loop_body ob_event) (before ++ after) vars st in
  snd with_seg = snd without /\
  world (fst with_seg) = world (fst without) /\
  (forall r, snd with_seg = Ok r ->
     exists l1 l2,
       warnings (fst without) = l1 ++ l2 /\
       warnings (fst with_seg) = l1 ++ added ++ l2).
Proof.
  intros Hseg. cbn zeta. rewrite !for_each_app. unfold bind.
  destruct st as [w l].
  destruct (for_each_log ob_event before vars w) as (w1 & a1 & r1 & Hbefore).
  rewrite Hbefore. destruct r1 as [vars1|e]; [|by repeat split].
  cbn [for_each]. unfold bind. rewrite Hseg. cbn [world warnings].
  destruct (for_each_log ob_event after vars1 w1) as (w2 & a2 & r2 & Hafter).
  rewrite !Hafter. cbn. repeat split.
  intros _ _. exists (l ++ a1), a2. by rewrite <- !app_assoc.
Qed.

Lemma for_each_skip_silent ob_event before seg after vars st :
  (forall vars st, loop_body ob_event vars seg st = (st, Ok vars)) ->
  for_each (loop_body ob_event) (before ++ seg :: after) vars st =
  for_each (loop_body ob_event) (before ++ after) vars st.
Proof.
  intros Hseg. rewrite !for_each_app. unfold bind.
  destruct (for_each _ before vars st) as [st1 [vars1|e]]; [|done].
  cbn [for_each]. unfold bind. by rewrite Hseg.
Qed.

(** The turn on a wire segment of kind [file] does nothing. *)
Lemma loop_body_file ob_event vars seg st :
  type seg = "file" -> loop_body ob_event vars seg st = (st, Ok vars).
Proof.
  intros Hkind. destruct vars as [ret_list is_tome].
  unfold loop_body. by rewrite Hkind.
Qed.

(** The turn on an image with neither [url] nor [file] logs a warning and
    goes on to the next segment. *)
Lemma loop_body_image_without_source ob_event vars seg st :
  type seg = "image" -> data seg !! "url" = None -> data seg !! "file" = None ->
  loop_body ob_event vars seg st =
    (mkState (world st) (warnings st ++ [ImageWithoutUrl seg]), Ok vars).
Proof.
  intros Hkind Hurl Hfile. destruct vars as [ret_list is_tome].
  unfold loop_body. by rewrite Hkind, Hurl, Hfile.
Qed.

Lemma decoding_loop_with_message ob_event m st :
  decoding_loop (with_message ob_event m) st =
  for_each (loop_body ob_event) m ([], false) st.
Proof.
  unfold decoding_loop. rewrite loop_body_with_message. by destruct ob_event.
Qed.

(** C4 (as amended): a wire segment of kind [file] is left out and nothing
    is logged for it; an image segment with neither [url] nor [file] is
    left out and one warning is logged for it.  Neither raises: the
    conversion returns what it returns on the message without that
    segment, and leaves the world as it does there. *)
Theorem convert_chat_message_drops_segment ob_event before seg after msg_to_me st :
  let with_seg :=
    convert_chat_message (with_message ob_event (before ++ seg :: after))
      msg_to_me st in
  let without :=
    convert_chat_message (with_message ob_event (before ++ after))
      msg_to_me st in
  (type seg = "file" -> with_seg = without) /\
  (type seg = "image" ->
   data seg !! "url" = None -> data seg !! "file" = None ->
   snd with_seg = snd without /\
   world (fst with_seg) = world (fst without) /\
   forall r, snd with_seg = Ok r ->
     exists l1 l2,
       warnings (fst without) = l1 ++ l2 /\
       warnings (fst with_seg) = l1 ++ ImageWithoutUrl seg :: l2).
Proof.
  cbn zeta. rewrite !convert_chat_message_unfold, !decoding_loop_with_message.
  split.
  - intros Hkind. rewrite for_each_skip_silent; [done|].
    intros vars st0. by apply loop_body_file.
  - intros Hkind Hurl Hfile.
    destruct (for_each_skip ob_event before seg after [ImageWithoutUrl seg]
                ([], false) st) as (Hres & Hworld & Hlog).
    { intros vars st0. by apply loop_body_image_without_source. }
    destruct (for_each _ (before ++ seg :: after) _ st)
      as [st1 [[ret_list1 is_tome1]|e1]];
    destruct (for_each _ (before ++ after) _ st)
      as [st2 [[ret_list2 is_tome2]|e2]];
    simpl in *; simplify_eq; repeat split; try done.
    intros r _. by apply (Hlog (ret_list2, is_tome2)).
Qed.

(** ** Images (C5, C7) *)

(** The turn on an image that carries [url]. *)
Lemma loop_body_image_url ob_event ret_list is_tome seg url st :
  type seg = "image" -> data seg !! "url" = Some (VStr url) ->
  loop_body ob_event (ret_list, is_tome) seg st =
  match download_file (VStr url) (image_suffix seg) (world st) with
  | (w', Ok (local_path, file_name)) =>
      (mkState w' (warnings st),
       Ok (ret_list ++
             [ChatMessageSegmentImage IMAGE "" file_name local_path url],
           is_tome))
  | (w', Raise e) => (mkState w' (warnings st), Raise e)
  end.
Proof.
  intros Hkind Hurl. unfold loop_body. rewrite Hkind, Hurl. run_monad. cbn.
  by destruct (download_file _ _ _) as [w' [[local_path file_name]|e]].
Qed.

(** The turn on an image that carries [file] and no [url]. *)
Lemma loop_body_image_file ob_event ret_list is_tome seg path st :
  type seg = "image" -> data seg !! "url" = None ->
  data seg !! "file" = Some (VStr path) ->
  loop_body ob_event (ret_list, is_tome) seg st =
  match move_to_upload_dir
          (if PyStr.startswith "file:" path then PyStr.drop 5 path else path)
          (image_suffix seg) (world st) with
  | (w', Ok (local_path, file_name)) =>
      (mkState w' (warnings st),
       Ok (ret_list ++
             [ChatMessageSegmentImage IMAGE "" file_name local_path ""],
           is_tome))
  | (w', Raise e) => (mkState w' (warnings st), Raise e)
  end.
Proof.
  intros Hkind Hurl Hfile. unfold loop_body. rewrite Hkind, Hurl, Hfile.
  run_monad. cbn -[PyStr.startswith PyStr.drop].
  by destruct (move_to_upload_dir _ _ _) as [w' [[local_path file_name]|e]].
Qed.

(** [str.split] never returns an empty list. *)
Lemma split_nonempty sep s : PyStr.split sep s <> [].
Proof.
  destruct s as [|c rest]; simpl; [done|].
  destruct (Ascii.eqb c sep); [done|]. by destruct (PyStr.split sep rest).
Qed.

(** Splitting around an occurrence of the separator. *)
Lemma split_app sep s1 s2 :
  PyStr.split sep (s1 +:+ String sep s2) = PyStr.split sep s1 ++ PyStr.split sep s2.
Proof.
  induction s1 as [|c s1 IH]; simpl.
  - by rewrite Ascii.eqb_refl.
  - rewrite IH. destruct (Ascii.eqb c sep); [done|].
    pose proof (split_nonempty sep s1).
    by destruct (PyStr.split sep s1).
Qed.

(** A string without the separator is one piece. *)
Lemma split_without sep s :
  PyStr.contains sep s = false -> PyStr.split sep s = [s].
Proof.
  induction s as [|c s IH]; simpl; [done|].
  intros [Hc Hs]%orb_false_elim. rewrite Hc. by rewrite (IH Hs).
Qed.

(** The last piece of a name that ends in [.ext]. *)
Lemma last_item_split_ext base ext :
  PyStr.contains "." ext = false ->
  PyStr.last_item (PyStr.split "." (base +:+ "." +:+ ext)) = Ok ext.
Proof.
  intros Hext. unfold PyStr.last_item.
  change ("." +:+ ext) with (String "."%char ext).
  rewrite split_app, (split_without _ _ Hext).
  by rewrite last_snoc.
Qed.

(** C7 (as amended): the suffix of an image segment is [.] followed by the
    lower-cased text after the last [.] of the wire file name when that
    name contains a [.], and it is the empty string when the segment has no
    [file] entry or one that is not a string; that suffix is what the
    download and the move into the upload directory are given. *)
Theorem image_suffix_from_file_name seg :
  (forall base ext,
     data seg !! "file" = Some (VStr (base +:+ "." +:+ ext)) ->
     PyStr.contains "." ext = false ->
     image_suffix seg = "." +:+ PyStr.lower unicode_lower ext) /\
  (data seg !! "file" = None -> image_suffix seg = "") /\
  (forall z, data seg !! "file" = Some (VInt z) -> image_suffix seg = "") /\
  (forall ob_event ret_list is_tome url st,
     type seg = "image" -> data seg !! "url" = Some (VStr url) ->
     exists w' fetched,
       download_file (VStr url) (image_suffix seg) (world st) =
         (w', fetched) /\
       fst (loop_body ob_event (ret_list, is_tome) seg st) =
         mkState w' (warnings st)) /\
  (forall ob_event ret_list is_tome path st,
     type seg = "image" -> data seg !! "url" = None ->
     data seg !! "file" = Some (VStr path) ->
     exists w' moved,
       move_to_upload_dir
         (if PyStr.startswith "file:" path then PyStr.drop 5 path else path)
         (image_suffix seg) (world st) = (w', moved) /\
       fst (loop_body ob_event (ret_list, is_tome) seg st) =
         mkState w' (warnings st)).
Proof.
  repeat split.
  - intros base ext Hfile Hext.
    unfold image_suffix, suffix_attempt, getitem. rewrite Hfile. simpl.
    by rewrite (last_item_split_ext _ _ Hext).
  - intros Hfile. unfold image_suffix, suffix_attempt, getitem.
    by rewrite Hfile.
  - intros z Hfile. unfold image_suffix, suffix_attempt, getitem.
    by rewrite Hfile.
  - intros ob_event ret_list is_tome url st Hkind Hurl.
    rewrite (loop_body_image_url _ _ _ _ _ _ Hkind Hurl).
    destruct (download_file _ _ _) as [w' [[local_path file_name]|e]]; eauto.
  - intros ob_event ret_list is_tome path st Hkind Hurl Hfile.
    rewrite (loop_body_image_file _ _ _ _ _ _ Hkind Hurl Hfile).
    destruct (move_to_upload_dir _ _ _) as [w' [[local_path file_name]|e]]; eauto.
Qed.

(** ** Mentions (C9) *)

(** C9: in a group, the turn on a mention whose identifier is the agent's
    own, compared as strings, appends a mention with [target_qq] the
    agent's identifier and [target_nickname] the preset name and sets
    [is_tome]; the world is left as it was, no group card is looked up.
    A conversion that returns on a message with such a segment returns the
    flag true. *)
Theorem loop_body_mention_of_self group_id msg ret_list is_tome seg qq st :
  type seg = "at" -> data seg !! "qq" = Some qq ->
  py_str qq = py_str (BOT_QQ config) ->
  loop_body (GroupMessageEvent group_id msg) (ret_list, is_tome) seg st =
    (st, Ok (ret_list ++
               [ChatMessageSegmentAt AT "" (py_str (BOT_QQ config))
                  (AI_CHAT_PRESET_NAME config)],
             true)) /\
  (In seg msg ->
   forall msg_to_me st' segs flag,
     convert_chat_message (GroupMessageEvent group_id msg) msg_to_me st =
       (st', Ok (segs, flag)) ->
     flag = true).
Proof.
  intros Hkind Hqq Hself. split.
  - unfold loop_body, getitem. rewrite Hkind, Hqq. run_monad. cbn.
    by rewrite Hself, String.eqb_refl.
  - intros Hin msg_to_me st' segs flag. rewrite convert_chat_message_unfold.
    destruct (decoding_loop _ st) as [st1 [[ret_list1 is_tome1]|e]] eqn:Hloop;
      [|discriminate].
    intros [= <- <- <-]. rewrite (decoding_loop_flag _ _ _ _ _ Hloop). simpl.
    apply existsb_exists. exists seg. split; [done|].
    unfold mentions_self. by rewrite Hkind, Hqq, Hself, !String.eqb_refl.
Qed.

End ConvertorFacts.

(** C5: on an image segment that carries both [url] and [file], the turn
    of the loop downloads the URL and appends an image whose [remote_url]
    is the wire URL, non-empty as that URL is; [move_to_upload_dir] plays
    no part, the turn is the same whatever that function is. *)
Theorem loop_body_image_url_priority {W} config download_file
    move_to_upload_dir get_user_group_card_name unicode_lower ob_event
    ret_list is_tome seg url file (st : state W) :
  type seg = "image" ->
  data seg !! "url" = Some (VStr url) -> data seg !! "file" = Some file ->
  loop_body config download_file move_to_upload_dir get_user_group_card_name
    unicode_lower ob_event (ret_list, is_tome) seg st =
  match download_file (VStr url) (image_suffix unicode_lower seg) (world st) with
  | (w', Ok (local_path, file_name)) =>
      (mkState w' (warnings st),
       Ok (ret_list ++
             [ChatMessageSegmentImage IMAGE "" file_name local_path url],
           is_tome))
  | (w', Raise e) => (mkState w' (warnings st), Raise e)
  end /\
  (forall other_move,
     loop_body config download_file other_move get_user_group_card_name
       unicode_lower ob_event (ret_list, is_tome) seg st =
     loop_body config download_file move_to_upload_dir
       get_user_group_card_name unicode_lower ob_event (ret_list, is_tome)
       seg st) /\
  (url <> "" ->
   forall st' ret_list' is_tome',
     loop_body config download_file move_to_upload_dir
       get_user_group_card_name unicode_lower ob_event (ret_list, is_tome)
       seg st =
       (st', Ok (ret_list', is_tome')) ->
     exists local_path file_name remote_url,
       ret_list' =
         ret_list ++
         [ChatMessageSegmentImage IMAGE "" file_name local_path remote_url] /\
       remote_url = url /\ remote_url <> "").
Proof.
  intros Hkind Hurl _. split; [|split].
  - by apply loop_body_image_url.
  - intros other_move. by rewrite !(loop_body_image_url _ _ _ _ _ _ _ _ _ _ _ Hkind Hurl).
  - intros Hne st' ret_list' is_tome'.
    rewrite (loop_body_image_url _ _ _ _ _ _ _ _ _ _ _ Hkind Hurl).
    destruct (download_file _ _ _) as [w' [[local_path file_name]|e]];
      [|discriminate].
    intros [= <- <- <-]. by exists local_path, file_name, url.
Qed.

(** ** The prompt string (C6, C10) *)

Lemma append_cons c s1 s2 : String c s1 +:+ s2 = String c (s1 +:+ s2).
Proof. reflexivity. Qed.

Lemma append_nil_r s : s +:+ "" = s.
Proof.
  induction s as [|c s IH]; [done|]. by rewrite append_cons, IH.
Qed.

Lemma append_assoc s1 s2 s3 : (s1 +:+ s2) +:+ s3 = s1 +:+ (s2 +:+ s3).
Proof.
  induction s1 as [|c s1 IH]; [done|]. by rewrite !append_cons, IH.
Qed.

Section PromptFacts.

Variable get_downloaded_prompt_file_path : string -> string.

Abbreviation segment_prompt := (segment_prompt get_downloaded_prompt_file_path).
Abbreviation convert_chat_message_to_prompt_str :=
  (convert_chat_message_to_prompt_str get_downloaded_prompt_file_path).

(** The loop started on [prompt_str = acc] yields [acc] followed by what
    it yields started on the empty string. *)
Lemma prompt_str_from acc chat_message one_time_code :
  fold_left (fun prompt_str seg => prompt_str +:+ segment_prompt one_time_code seg)
    chat_message acc =
  acc +:+ convert_chat_message_to_prompt_str chat_message one_time_code.
Proof.
  unfold convert_chat_message_to_prompt_str. revert acc.
  induction chat_message as [|seg rest IH]; intros acc; simpl.
  - by rewrite append_nil_r.
  - rewrite (IH (acc +:+ _)), (IH ("" +:+ _)).
    by rewrite append_assoc.
Qed.

(** C6: the list of the one image named [img1.png], fetched from
    [http://x/y.png], is rendered with the code [OTC1] as the marker
    [<OTC1 | Image:PATH>], where [PATH] is the prompt path of [img1.png],
    and nothing before or after it. *)
Theorem prompt_str_image_marker ty text local_path :
  convert_chat_message_to_prompt_str
    [ChatMessageSegmentImage ty text "img1.png" local_path "http://x/y.png"]
    "OTC1" =
  "<OTC1 | Image:" +:+ get_downloaded_prompt_file_path "img1.png" +:+ ">".
Proof. reflexivity. Qed.

(** C10: the prompt string of a concatenation is the concatenation of the
    prompt strings, and the prompt string of the empty list is empty. *)
Theorem prompt_str_app xs ys one_time_code :
  convert_chat_message_to_prompt_str (xs ++ ys) one_time_code =
    convert_chat_message_to_prompt_str xs one_time_code +:+
    convert_chat_message_to_prompt_str ys one_time_code /\
  convert_chat_message_to_prompt_str [] one_time_code = "".
Proof.
  split; [|reflexivity].
  unfold convert_chat_message_to_prompt_str at 1.
  by rewrite fold_left_app, prompt_str_from.
Qed.

(** ** Persisted records (C8) *)

Variable json_loads : string -> result json.

Abbreviation convert_raw_msg_data_json_to_msg_prompt :=
  (convert_raw_msg_data_json_to_msg_prompt get_downloaded_prompt_file_path
     json_loads).

Lemma segment_from_dict_unknown item :
  unknown_variant item = true -> exists e, segment_from_dict item = Raise e.
Proof.
  destruct item as [| | | | |fields]; simpl; try discriminate.
  unfold field_str, result_bind.
  destruct (fields !! "type") as [[| | |tag| |]|]; try discriminate.
  intros Hunknown%negb_true_iff%bool_decide_eq_false.
  unfold known_tags in Hunknown.
  destruct (String.eqb_spec tag "text") as [->|_]; [set_solver|].
  destruct (String.eqb_spec tag "image") as [->|_]; [set_solver|].
  destruct (String.eqb_spec tag "file") as [->|_]; [set_solver|].
  destruct (String.eqb_spec tag "at") as [->|_]; [set_solver|].
  eauto.
Qed.

Lemma segments_from_items_unknown items :
  existsb unknown_variant items = true ->
  exists e, segments_from_items items = Raise e.
Proof.
  induction items as [|item items IH]; simpl; [discriminate|].
  intros [Hitem|Hrest]%orb_true_iff.
  - destruct (segment_from_dict_unknown item Hitem) as [e ->]. simpl. eauto.
  - destruct (segment_from_dict item) as [seg|e]; simpl; [|eauto].
    destruct (IH Hrest) as [e ->]. simpl. eauto.
Qed.

(** C8: when [json.loads] rejects the text, or accepts it and the record
    contains an item of an unknown variant, the replay raises and returns
    no prompt string. *)
Theorem convert_raw_msg_data_json_fails json_data one_time_code :
  (exists e, json_loads json_data = Raise e) \/
  (exists record,
     json_loads json_data = Ok record /\
     contains_unknown_variant record = true) ->
  exists e,
    convert_raw_msg_data_json_to_msg_prompt json_data one_time_code = Raise e.
Proof.
  unfold convert_raw_msg_data_json_to_msg_prompt.
  intros [[e ->]|(record & -> & Hunknown)]; simpl; [eauto|].
  destruct record as [| | | |items|]; simpl in *; try discriminate.
  destruct (segments_from_items_unknown items Hunknown) as [e ->]. simpl. eauto.
Qed.

End PromptFacts.

(** ** The properties on the sample deployment *)

(** C1: a group message [hi] that was directed at the agent and carries no
    mention of it.  The conversion puts the mention of the agent first, as
    the claim says, and returns the flag false, where the claim says true:
    the insertion of the synthetic mention leaves [is_tome] as it was,
    unlike the turn of the loop on an explicit mention of the agent. *)
Theorem convert_chat_message_synthetic_mention_flag :
  let ob_event :=
    GroupMessageEvent 5 [Sample.seg "text" [("text", VStr "hi")]] in
  existsb (mentions_self Sample.config) (message ob_event) = false /\
  Sample.convert_chat_message ob_event true Sample.st0 =
    (Sample.st0,
     Ok ([ChatMessageSegmentAt AT "" "10001" "Neko";
          ChatMessageSegmentBase TEXT "hi"], false)) /\
  ~ exists st' segs,
      Sample.convert_chat_message ob_event true Sample.st0 =
        (st', Ok (segs, true)).
Proof.
  split; [reflexivity|]. split; [reflexivity|].
  intros (st' & segs & H). vm_compute in H. discriminate H.
Qed.

Lemma convert_chat_message_self_mention_dedup_witness :
  let ob_event :=
    GroupMessageEvent 5
      [Sample.seg "at" [("qq", VStr "10001")];
       Sample.seg "text" [("text", VStr "hi")]] in
  existsb (mentions_self Sample.config) (message ob_event) = true /\
  Sample.convert_chat_message ob_event true Sample.st0 =
    decoding_loop Sample.config Sample.download_file
      Sample.move_to_upload_dir Sample.get_user_group_card_name Sample.unicode_lower
      ob_event Sample.st0.
Proof.
  split; [reflexivity|].
  apply (convert_chat_message_self_mention_dedup Sample.config). reflexivity.
Defined.

Lemma convert_chat_message_preserves_order_witness :
  let ob_event :=
    GroupMessageEvent 5
      [Sample.seg "text" [("text", VStr "see ")];
       Sample.seg "image" [("file", VStr "a.PNG"); ("url", VStr "http://x/a")];
       Sample.seg "file" [("file", VStr "notes.txt")];
       Sample.seg "at" [("qq", VInt 42)]] in
  let segs :=
    [ChatMessageSegmentAt AT "" "10001" "Neko";
     ChatMessageSegmentBase TEXT "see ";
     ChatMessageSegmentImage IMAGE "" "res0.png" "/uploads/res0.png" "http://x/a";
     ChatMessageSegmentAt AT "" "42" "member-42"] in
  Sample.convert_chat_message ob_event true Sample.st0 =
    ({| world := 1; warnings := [] |}, Ok (segs, false)) /\
  exists outs,
    Forall2
      (decoded_from Sample.config Sample.download_file
         Sample.move_to_upload_dir Sample.get_user_group_card_name Sample.unicode_lower ob_event)
      (message ob_event) outs /\
    (segs = concat outs \/ segs = self_mention Sample.config :: concat outs).
Proof.
  cbv zeta. split; [reflexivity|].
  eapply (convert_chat_message_preserves_order Sample.config
            Sample.download_file Sample.move_to_upload_dir
            Sample.get_user_group_card_name Sample.unicode_lower _ true Sample.st0).
  reflexivity.
Defined.

Lemma convert_chat_message_drops_segment_witness :
  let ob_event := GroupMessageEvent 5 [] in
  let before := [Sample.seg "text" [("text", VStr "hi")]] in
  let after := [Sample.seg "text" [("text", VStr "!")]] in
  let file_seg := Sample.seg "file" [("file", VStr "notes.txt")] in
  let image_seg := Sample.seg "image" [("summary", VStr "sticker")] in
  (type file_seg = "file" /\
   Sample.convert_chat_message
     (with_message ob_event (before ++ file_seg :: after)) false Sample.st0 =
   Sample.convert_chat_message
     (with_message ob_event (before ++ after)) false Sample.st0) /\
  (type image_seg = "image" /\
   data image_seg !! "url" = None /\ data image_seg !! "file" = None /\
   snd (Sample.convert_chat_message
          (with_message ob_event (before ++ image_seg :: after)) false
          Sample.st0) =
   snd (Sample.convert_chat_message
          (with_message ob_event (before ++ after)) false Sample.st0)).
Proof.
  cbv zeta. split.
  - split; [reflexivity|].
    apply (convert_chat_message_drops_segment Sample.config). reflexivity.
  - split; [reflexivity|]. split; [reflexivity|]. split; [reflexivity|].
    apply (convert_chat_message_drops_segment Sample.config); reflexivity.
Defined.

(** The scenario of the specification: the file segment is left out, and
    no warning is logged for it. *)
Lemma convert_chat_message_file_counterexample :
  let ob_event :=
    GroupMessageEvent 5
      [Sample.seg "text" [("text", VStr "hi")];
       Sample.seg "file" [("file", VStr "notes.txt")]] in
  Sample.convert_chat_message ob_event false Sample.st0 =
    ({| world := 0; warnings := [] |},
     Ok ([ChatMessageSegmentBase TEXT "hi"], false)) /\
  ~ exists ev,
      In ev (warnings (fst (Sample.convert_chat_message ob_event false
                               Sample.st0))).
Proof.
  split; [reflexivity|]. intros [ev Hin]. exact Hin.
Qed.

Lemma loop_body_image_url_priority_witness :
  let seg :=
    Sample.seg "image"
      [("file", VStr "file:/tmp/a.PNG"); ("url", VStr "http://x/a.png")] in
  type seg = "image" /\
  data seg !! "url" = Some (VStr "http://x/a.png") /\
  data seg !! "file" = Some (VStr "file:/tmp/a.PNG") /\
  forall other_move,
    loop_body Sample.config Sample.download_file other_move
      Sample.get_user_group_card_name Sample.unicode_lower
      (GroupMessageEvent 5 [seg]) ([], false) seg Sample.st0 =
    ({| world := 1; warnings := [] |},
     Ok ([ChatMessageSegmentImage IMAGE "" "res0.png" "/uploads/res0.png"
            "http://x/a.png"], false)).
Proof.
  cbv zeta. split; [reflexivity|]. split; [reflexivity|]. split; [reflexivity|].
  intros other_move.
  destruct (loop_body_image_url_priority Sample.config Sample.download_file
              other_move Sample.get_user_group_card_name Sample.unicode_lower
              (GroupMessageEvent 5 []) [] false
              (Sample.seg "image"
                 [("file", VStr "file:/tmp/a.PNG");
                  ("url", VStr "http://x/a.png")])
              "http://x/a.png" (VStr "file:/tmp/a.PNG") Sample.st0
              eq_refl eq_refl eq_refl) as [Hturn _].
  exact Hturn.
Defined.

Lemma image_suffix_from_file_name_witness :
  let seg := Sample.seg "image" [("file", VStr "Photo.of.cat.JPG")] in
  let seg' := Sample.seg "image" [("file", VStr "x.JPÉ")] in
  (data seg !! "file" = Some (VStr ("Photo.of.cat" +:+ "." +:+ "JPG")) /\
   PyStr.contains "." "JPG" = false /\
   image_suffix Sample.unicode_lower seg = ".jpg") /\
  (data seg' !! "file" = Some (VStr ("x" +:+ "." +:+ "JPÉ")) /\
   PyStr.contains "." "JPÉ" = false /\
   image_suffix Sample.unicode_lower seg' = ".jpé") /\
  (data (Sample.seg "image" []) !! "file" = None /\
   image_suffix Sample.unicode_lower (Sample.seg "image" []) = "").
Proof.
  cbv zeta. split; [|split].
  - split; [reflexivity|]. split; [reflexivity|].
    apply (proj1 (image_suffix_from_file_name Sample.config
                    Sample.download_file Sample.move_to_upload_dir
                    Sample.get_user_group_card_name Sample.unicode_lower
                    (Sample.seg "image" [("file", VStr "Photo.of.cat.JPG")]))
             "Photo.of.cat" "JPG"); reflexivity.
  - split; [reflexivity|]. split; [reflexivity|].
    apply (proj1 (image_suffix_from_file_name Sample.config
                    Sample.download_file Sample.move_to_upload_dir
                    Sample.get_user_group_card_name Sample.unicode_lower
                    (Sample.seg "image" [("file", VStr "x.JPÉ")]))
             "x" "JPÉ"); reflexivity.
  - split; [reflexivity|].
    apply (image_suffix_from_file_name Sample.config Sample.download_file
             Sample.move_to_upload_dir Sample.get_user_group_card_name
             Sample.unicode_lower (Sample.seg "image" [])).
    reflexivity.
Defined.

(** A file name without a [.]: the suffix is not the empty string. *)
Lemma image_suffix_counterexample :
  let seg := Sample.seg "image" [("file", VStr "PHOTO"); ("url", VStr "http://x/a")] in
  data seg !! "file" = Some (VStr "PHOTO") /\
  PyStr.contains "." "PHOTO" = false /\
  image_suffix Sample.unicode_lower seg = ".photo" /\
  image_suffix Sample.unicode_lower seg <> "".
Proof. repeat split; discriminate. Qed.

Lemma convert_raw_msg_data_json_fails_witness :
  ((exists e, Sample.json_loads "{oops" = Raise e) /\
   exists e,
     convert_raw_msg_data_json_to_msg_prompt
       Sample.get_downloaded_prompt_file_path Sample.json_loads
       "{oops" "OTC1" = Raise e) /\
  ((exists record,
      Sample.json_loads "[{type:video}]" = Ok record /\
      contains_unknown_variant record = true) /\
   exists e,
     convert_raw_msg_data_json_to_msg_prompt
       Sample.get_downloaded_prompt_file_path Sample.json_loads
       "[{type:video}]" "OTC1" = Raise e).
Proof.
  split.
  - assert (exists e, Sample.json_loads "{oops" = Raise e) as Hbad
      by (eexists; reflexivity).
    split; [exact Hbad|].
    apply convert_raw_msg_data_json_fails. left. exact Hbad.
  - assert (exists record,
              Sample.json_loads "[{type:video}]" = Ok record /\
              contains_unknown_variant record = true) as Hunknown
      by (eexists; split; reflexivity).
    split; [exact Hunknown|].
    apply convert_raw_msg_data_json_fails. right. exact Hunknown.
Defined.

Lemma loop_body_mention_of_self_witness :
  let seg := Sample.seg "at" [("qq", VStr "10001")] in
  let msg := [Sample.seg "text" [("text", VStr "hi ")]; seg] in
  type seg = "at" /\
  data seg !! "qq" = Some (VStr "10001") /\
  py_str (VStr "10001") = py_str (BOT_QQ Sample.config) /\
  Sample.loop_body (GroupMessageEvent 5 msg)
    ([ChatMessageSegmentBase TEXT "hi "], false) seg Sample.st0 =
    (Sample.st0,
     Ok ([ChatMessageSegmentBase TEXT "hi ";
          ChatMessageSegmentAt AT "" "10001" "Neko"], true)).
Proof.
  cbv zeta. split; [reflexivity|]. split; [reflexivity|]. split; [reflexivity|].
  apply (loop_body_mention_of_self Sample.config Sample.download_file
           Sample.move_to_upload_dir Sample.get_user_group_card_name Sample.unicode_lower 5
           [Sample.seg "text" [("text", VStr "hi ")];
            Sample.seg "at" [("qq", VStr "10001")]]
           [ChatMessageSegmentBase TEXT "hi "] false
           (Sample.seg "at" [("qq", VStr "10001")]) (VStr "10001") Sample.st0);
    reflexivity.
Defined.

(** * Further properties of the convertor *)

Section ConvertorMore.

Context {W : Type}.
Variable config : Config.
Variable download_file :
  value -> string -> W -> W * result (string * string).
Variable move_to_upload_dir :
  string -> string -> W -> W * result (string * string).
Variable get_user_group_card_name :
  Z -> string -> W -> W * result string.
Variable unicode_lower : string -> string.
Variable get_downloaded_prompt_file_path : string -> string.

Abbreviation image_suffix := (image_suffix unicode_lower).
Abbreviation loop_body :=
  (loop_body config download_file move_to_upload_dir get_user_group_card_name
     unicode_lower).
Abbreviation convert_chat_message :=
  (convert_chat_message config download_file move_to_upload_dir
     get_user_group_card_name unicode_lower).
Abbreviation decoding_loop :=
  (decoding_loop config download_file move_to_upload_dir
     get_user_group_card_name unicode_lower).
Abbreviation mentions_self := (mentions_self config).
Abbreviation self_mention := (self_mention config).
Abbreviation convert_chat_message_to_prompt_str :=
  (convert_chat_message_to_prompt_str get_downloaded_prompt_file_path).

Ltac run_monad :=
  unfold bind, lift_result, await, ret, raise, logger_warning, result_bind.

Ltac split_collaborators :=
  repeat match goal with
         | H : context [download_file ?u ?x ?w] |- _ =>
             destruct (download_file u x w) as [? [[? ?]|?]]
         | H : context [move_to_upload_dir ?u ?x ?w] |- _ =>
             destruct (move_to_upload_dir u x w) as [? [[? ?]|?]]
         | H : context [get_user_group_card_name ?g ?u ?w] |- _ =>
             destruct (get_user_group_card_name g u w) as [? [?|?]]
         end.

(** *** Messages of text only *)

Lemma for_each_text_only ob_event msg texts ret_list is_tome st :
  Forall2 (fun seg text => plain_text seg = Some text) msg texts ->
  for_each (loop_body ob_event) msg (ret_list, is_tome) st =
    (st, Ok (ret_list ++ map (ChatMessageSegmentBase TEXT) texts, is_tome)).
Proof.
  intros Htexts. revert ret_list.
  induction Htexts as [|seg text msg texts Hseg _ IH]; intros ret_list;
    cbn [for_each map].
  - unfold ret. by rewrite app_nil_r.
  - unfold bind. unfold plain_text in Hseg.
    assert (loop_body ob_event (ret_list, is_tome) seg st =
              (st, Ok (ret_list ++ [ChatMessageSegmentBase TEXT text], is_tome)))
      as ->.
    { unfold loop_body. run_monad. repeat case_match; by simplify_eq/=. }
    rewrite IH. by rewrite <- app_assoc.
Qed.

(** X1: a message whose segments are all of kind [text], with string
    texts, is converted without calling a collaborator and without a
    warning: the state is unchanged, the flag is false, and the list is
    the texts in wire order, after the synthetic mention when [msg_to_me]
    is true. *)
Theorem convert_chat_message_text_only ob_event msg_to_me texts st :
  Forall2 (fun seg text => plain_text seg = Some text) (message ob_event) texts ->
  convert_chat_message ob_event msg_to_me st =
    (st, Ok ((if msg_to_me then [self_mention] else []) ++
             map (ChatMessageSegmentBase TEXT) texts, false)).
Proof.
  intros Htexts. rewrite convert_chat_message_unfold. unfold decoding_loop.
  rewrite (for_each_text_only _ _ _ _ _ _ Htexts). simpl.
  by destruct msg_to_me.
Qed.

Lemma prompt_str_texts texts one_time_code :
  convert_chat_message_to_prompt_str
    (map (ChatMessageSegmentBase TEXT) texts) one_time_code =
  String.concat "" texts.
Proof.
  induction texts as [|text texts IH]; [done|].
  change (map _ (text :: texts))
    with ([ChatMessageSegmentBase TEXT text] ++
          map (ChatMessageSegmentBase TEXT) texts).
  unfold convert_chat_message_to_prompt_str at 1.
  rewrite fold_left_app, prompt_str_from, IH.
  destruct texts as [|text' texts]; [|done].
  by rewrite append_nil_r.
Qed.

(** X2: the prompt string of a converted text-only message is the
    concatenation of its texts, after the marker of the mention of the
    agent when [msg_to_me] is true. *)
Theorem convert_then_prompt_text_only ob_event msg_to_me texts st one_time_code :
  Forall2 (fun seg text => plain_text seg = Some text) (message ob_event) texts ->
  exists segs,
    convert_chat_message ob_event msg_to_me st = (st, Ok (segs, false)) /\
    convert_chat_message_to_prompt_str segs one_time_code =
      (if msg_to_me
       then "<" +:+ one_time_code +:+ " | At:[@qq:" +:+
            py_str (BOT_QQ config) +:+ ";nickname:" +:+
            AI_CHAT_PRESET_NAME config +:+ "@]>"
       else "") +:+ String.concat "" texts.
Proof.
  intros Htexts.
  exists ((if msg_to_me then [self_mention] else []) ++
          map (ChatMessageSegmentBase TEXT) texts).
  split.
  - rewrite convert_chat_message_unfold. unfold decoding_loop.
    rewrite (for_each_text_only _ _ _ _ _ _ Htexts). simpl.
    by destruct msg_to_me.
  - unfold convert_chat_message_to_prompt_str at 1.
    rewrite fold_left_app, prompt_str_from, prompt_str_texts.
    by destruct msg_to_me.
Qed.

(** *** Size, flag and log of a conversion *)

Lemma decoded_length_le ob_event msg outs :
  Forall2
    (decoded_from config download_file move_to_upload_dir
       get_user_group_card_name unicode_lower ob_event) msg outs ->
  length (concat outs) <= length msg.
Proof.
  induction 1 as [|seg out msg outs [Hout _] _ IH]; simpl; [lia|].
  rewrite length_app. lia.
Qed.

(** X3: a conversion returns at most one segment for each wire segment,
    and one more for the synthetic mention, which is there only when
    [msg_to_me] is true and the returned flag is false. *)
Theorem convert_chat_message_length ob_event msg_to_me st st' segs flag :
  convert_chat_message ob_event msg_to_me st = (st', Ok (segs, flag)) ->
  length segs <=
    length (message ob_event) + (if msg_to_me && negb flag then 1 else 0).
Proof.
  rewrite convert_chat_message_unfold.
  destruct (decoding_loop ob_event st) as [st1 [[ret_list is_tome]|e]] eqn:Hloop;
    [|discriminate].
  intros [= <- <- <-].
  apply for_each_loop_body in Hloop as (outs & Houts & -> & _).
  pose proof (decoded_length_le _ _ _ Houts) as Hlen.
  destruct (msg_to_me && negb is_tome); simpl in *; lia.
Qed.

(** X4: the flag a conversion returns tells whether a wire segment is an
    explicit mention of the agent; it does not depend on [msg_to_me]. *)
Theorem convert_chat_message_flag ob_event msg_to_me st st' segs flag :
  convert_chat_message ob_event msg_to_me st = (st', Ok (segs, flag)) ->
  flag = existsb mentions_self (message ob_event).
Proof.
  rewrite convert_chat_message_unfold.
  destruct (decoding_loop ob_event st) as [st1 [[ret_list is_tome]|e]] eqn:Hloop;
    [|discriminate].
  intros [= <- <- <-]. by eapply decoding_loop_flag.
Qed.

Lemma loop_body_warnings ob_event vars seg st st' vars' :
  loop_body ob_event vars seg st = (st', Ok vars') ->
  warnings st' =
    warnings st ++ (if sourceless_image seg then [ImageWithoutUrl seg] else []).
Proof.
  destruct vars as [ret_list is_tome].
  unfold loop_body, sourceless_image. run_monad. intros Hturn.
  repeat case_match; simplify_eq/=; split_collaborators; simplify_eq/=;
    rewrite ?app_nil_r; try done;
    repeat match goal with
           | H : String.eqb (type _) _ = true |- _ =>
               apply String.eqb_eq in H; rewrite H in *
           end; simplify_eq/=; by rewrite ?app_nil_r.
Qed.

Lemma for_each_warnings ob_event msg vars st st' vars' :
  for_each (loop_body ob_event) msg vars st = (st', Ok vars') ->
  warnings st' =
    warnings st ++ map ImageWithoutUrl (List.filter sourceless_image msg).
Proof.
  revert vars st. induction msg as [|seg msg IH]; intros vars st; cbn [for_each].
  - unfold ret. intros [= <- <-]. by rewrite app_nil_r.
  - unfold bind.
    destruct (loop_body ob_event vars seg st) as [st1 [vars1|e]] eqn:Hturn;
      [|discriminate].
    intros Hrest. rewrite (IH _ _ Hrest), (loop_body_warnings _ _ _ _ _ _ Hturn).
    simpl. destruct (sourceless_image seg); simpl; by rewrite <- app_assoc.
Qed.

(** X5: a conversion that returns has logged one warning for each image
    segment with neither [url] nor [file], in wire order, and nothing
    else. *)
Theorem convert_chat_message_warnings ob_event msg_to_me st st' r :
  convert_chat_message ob_event msg_to_me st = (st', Ok r) ->
  warnings st' =
    warnings st ++
    map ImageWithoutUrl (List.filter sourceless_image (message ob_event)).
Proof.
  rewrite convert_chat_message_unfold.
  destruct (decoding_loop ob_event st) as [st1 [[ret_list is_tome]|e]] eqn:Hloop;
    [|discriminate].
  intros [= <- _]. by eapply for_each_warnings.
Qed.

(** *** Failures *)

Lemma for_each_raises_app {A S} (body : S -> A -> M W S) xs ys acc st st' e :
  for_each body xs acc st = (st', Raise e) ->
  for_each body (xs ++ ys) acc st = (st', Raise e).
Proof.
  intros Hxs. rewrite for_each_app. unfold bind. by rewrite Hxs.
Qed.

(** X6: when the decoding of a message raises, the conversion of any
    longer message that starts with it raises the same exception in the
    same state: the segments after the failing one are not decoded and no
    list is returned. *)
Theorem convert_chat_message_fails_fast ob_event msg rest msg_to_me st st' e :
  convert_chat_message (with_message ob_event msg) msg_to_me st =
    (st', Raise e) ->
  convert_chat_message (with_message ob_event (msg ++ rest)) msg_to_me st =
    (st', Raise e).
Proof.
  rewrite !convert_chat_message_unfold, !decoding_loop_with_message.
  destruct (for_each _ msg _ st) as [st1 [[ret_list is_tome]|e1]] eqn:Hmsg;
    [discriminate|].
  intros [= <- <-]. by rewrite (for_each_raises_app _ _ rest _ _ _ _ Hmsg).
Qed.

Lemma for_each_at_outside_group whole msg vars st :
  Exists (fun seg => type seg = "at") msg ->
  exists st' e,
    for_each (loop_body (MessageEvent whole)) msg vars st = (st', Raise e).
Proof.
  intros Hat. revert vars st.
  induction msg as [|seg msg IH]; intros vars st; [by inversion Hat|].
  cbn [for_each]. unfold bind.
  destruct (loop_body (MessageEvent whole) vars seg st)
    as [st1 [vars1|e]] eqn:Hturn; [|eauto].
  inversion Hat as [? ? Hseg|? ? Hrest]; subst; [|by apply IH].
  exfalso. destruct vars as [ret_list is_tome].
  unfold loop_body in Hturn. rewrite Hseg in Hturn. by simpl in Hturn.
Qed.

(** X7: outside a group, the conversion of a message with a mention
    segment never returns: it raises. *)
Theorem convert_chat_message_at_outside_group msg msg_to_me st :
  Exists (fun seg => type seg = "at") msg ->
  exists st' e,
    convert_chat_message (MessageEvent msg) msg_to_me st = (st', Raise e).
Proof.
  intros Hat. rewrite convert_chat_message_unfold. unfold decoding_loop.
  cbn [message].
  destruct (for_each_at_outside_group msg msg ([], false) st Hat)
    as (st' & e & ->). eauto.
Qed.

(** *** Images from a local file *)

Lemma prefix_drop p s :
  String.prefix p s = true -> s = p +:+ PyStr.drop (String.length p) s.
Proof.
  revert s. induction p as [|c p IH]; intros s.
  - by destruct s.
  - destruct s as [|d s]; [discriminate|]. simpl.
    destruct (ascii_dec c d) as [->|]; [|discriminate].
    intros Hp. rewrite append_cons. f_equal. by apply IH.
Qed.

Lemma startswith_file_prefix path :
  PyStr.startswith "file:" path = true -> path = "file:" +:+ PyStr.drop 5 path.
Proof. apply prefix_drop. Qed.

(** *** The shape of the suffix *)









(** *** Text in the prompt string *)

(** X10: a text segment is rendered as its text, with no escaping,
    wherever it stands: a text that holds the rendering of some segments
    gives the same prompt string as those segments in its place. *)
Theorem prompt_str_text_verbatim xs ys ty segs one_time_code :
  convert_chat_message_to_prompt_str
    (xs ++ ChatMessageSegmentBase ty
             (convert_chat_message_to_prompt_str segs one_time_code) :: ys)
    one_time_code =
  convert_chat_message_to_prompt_str (xs ++ segs ++ ys) one_time_code.
Proof.
  unfold convert_chat_message_to_prompt_str at 1 3.
  rewrite !fold_left_app. cbn [fold_left segment_prompt].
  rewrite !(prompt_str_from _ _ ys), (prompt_str_from _ _ segs).
  by rewrite append_assoc.
Qed.

End ConvertorMore.

(** X8: on an image segment that carries [file] and no [url], the turn of
    the loop moves the file into the upload directory, naming it by the
    wire path without its leading [file:] if it has one, and appends an
    image with an empty [remote_url]; [download_file] plays no part. *)
Theorem loop_body_image_local_file {W} (config : Config)
    (move_to_upload_dir : string -> string -> W -> W * result (string * string))
    (get_user_group_card_name : Z -> string -> W -> W * result string)
    (unicode_lower : string -> string)
    ob_event ret_list is_tome seg path (st : state W) :
  type seg = "image" ->
  data seg !! "url" = None -> data seg !! "file" = Some (VStr path) ->
  exists moved_path,
    (path = "file:" +:+ moved_path \/
     PyStr.startswith "file:" path = false /\ moved_path = path) /\
    forall other_download,
      loop_body config other_download move_to_upload_dir
        get_user_group_card_name unicode_lower ob_event (ret_list, is_tome)
        seg st =
      match move_to_upload_dir moved_path (image_suffix unicode_lower seg)
              (world st) with
      | (w', Ok (local_path, file_name)) =>
          (mkState w' (warnings st),
           Ok (ret_list ++
                 [ChatMessageSegmentImage IMAGE "" file_name local_path ""],
               is_tome))
      | (w', Raise e) => (mkState w' (warnings st), Raise e)
      end.
Proof.
  intros Hkind Hurl Hfile.
  exists (if PyStr.startswith "file:" path then PyStr.drop 5 path else path).
  split.
  - destruct (PyStr.startswith "file:" path) eqn:Hprefix; [left|by right].
    by apply startswith_file_prefix.
  - intros other_download. by apply loop_body_image_file.
Qed.

(** ** The further properties on the sample deployment *)

Lemma convert_chat_message_text_only_witness :
  let ob_event :=
    GroupMessageEvent 5
      [Sample.seg "text" [("text", VStr "good ")];
       Sample.seg "text" [];
       Sample.seg "text" [("text", VStr "morning")]] in
  let texts := ["good "; ""; "morning"] in
  Forall2 (fun seg text => plain_text seg = Some text) (message ob_event) texts /\
  Sample.convert_chat_message ob_event true Sample.st0 =
    (Sample.st0,
     Ok ([self_mention Sample.config] ++
         map (ChatMessageSegmentBase TEXT) texts, false)).
Proof.
  cbv zeta.
  assert (Forall2 (fun seg text => plain_text seg = Some text)
            [Sample.seg "text" [("text", VStr "good ")];
             Sample.seg "text" [];
             Sample.seg "text" [("text", VStr "morning")]]
            ["good "; ""; "morning"]) as Htexts by (repeat constructor).
  split; [exact Htexts|].
  exact (convert_chat_message_text_only Sample.config Sample.download_file
           Sample.move_to_upload_dir Sample.get_user_group_card_name Sample.unicode_lower
           (GroupMessageEvent 5 _) true _ Sample.st0 Htexts).
Defined.

Lemma convert_then_prompt_text_only_witness :
  let ob_event :=
    GroupMessageEvent 5
      [Sample.seg "text" [("text", VStr "good ")];
       Sample.seg "text" [("text", VStr "morning")]] in
  let texts := ["good "; "morning"] in
  Forall2 (fun seg text => plain_text seg = Some text) (message ob_event) texts /\
  exists segs,
    Sample.convert_chat_message ob_event true Sample.st0 =
      (Sample.st0, Ok (segs, false)) /\
    convert_chat_message_to_prompt_str Sample.get_downloaded_prompt_file_path
      segs "OTC1" =
    "<OTC1 | At:[@qq:10001;nickname:Neko@]>good morning".
Proof.
  cbv zeta.
  assert (Forall2 (fun seg text => plain_text seg = Some text)
            [Sample.seg "text" [("text", VStr "good ")];
             Sample.seg "text" [("text", VStr "morning")]]
            ["good "; "morning"]) as Htexts by (repeat constructor).
  split; [exact Htexts|].
  exact (convert_then_prompt_text_only Sample.config Sample.download_file
           Sample.move_to_upload_dir Sample.get_user_group_card_name Sample.unicode_lower
           Sample.get_downloaded_prompt_file_path
           (GroupMessageEvent 5 _) true _ Sample.st0 "OTC1" Htexts).
Defined.

Lemma convert_chat_message_length_witness :
  let ob_event :=
    GroupMessageEvent 5
      [Sample.seg "text" [("text", VStr "see ")];
       Sample.seg "file" [("file", VStr "notes.txt")];
       Sample.seg "image" []] in
  Sample.convert_chat_message ob_event true Sample.st0 =
    ({| world := 0; warnings := [ImageWithoutUrl (Sample.seg "image" [])] |},
     Ok ([ChatMessageSegmentAt AT "" "10001" "Neko";
          ChatMessageSegmentBase TEXT "see "], false)) /\
  length [ChatMessageSegmentAt AT "" "10001" "Neko";
          ChatMessageSegmentBase TEXT "see "] <= 3 + 1.
Proof.
  intros ob_event. split; [reflexivity|].
  apply (convert_chat_message_length Sample.config Sample.download_file
           Sample.move_to_upload_dir Sample.get_user_group_card_name Sample.unicode_lower
           ob_event true Sample.st0
           {| world := 0;
              warnings := [ImageWithoutUrl (Sample.seg "image" [])] |}
           _ false).
  reflexivity.
Defined.

Lemma convert_chat_message_flag_witness :
  let ob_event :=
    GroupMessageEvent 5
      [Sample.seg "text" [("text", VStr "hi ")];
       Sample.seg "at" [("qq", VInt 10001)]] in
  Sample.convert_chat_message ob_event false Sample.st0 =
    (Sample.st0,
     Ok ([ChatMessageSegmentBase TEXT "hi ";
          ChatMessageSegmentAt AT "" "10001" "Neko"], true)) /\
  true = existsb (mentions_self Sample.config) (message ob_event).
Proof.
  intros ob_event. split; [reflexivity|].
  apply (convert_chat_message_flag Sample.config Sample.download_file
           Sample.move_to_upload_dir Sample.get_user_group_card_name Sample.unicode_lower
           ob_event false Sample.st0 Sample.st0
           [ChatMessageSegmentBase TEXT "hi ";
            ChatMessageSegmentAt AT "" "10001" "Neko"] true).
  reflexivity.
Defined.

Lemma convert_chat_message_warnings_witness :
  let ob_event :=
    GroupMessageEvent 5
      [Sample.seg "image" [];
       Sample.seg "image" [("url", VStr "http://x/a.png")];
       Sample.seg "image" [("summary", VStr "sticker")]] in
  Sample.convert_chat_message ob_event false Sample.st0 =
    ({| world := 1;
        warnings :=
          [ImageWithoutUrl (Sample.seg "image" []);
           ImageWithoutUrl (Sample.seg "image" [("summary", VStr "sticker")])] |},
     Ok ([ChatMessageSegmentImage IMAGE "" "res0" "/uploads/res0"
            "http://x/a.png"], false)) /\
  [ImageWithoutUrl (Sample.seg "image" []);
   ImageWithoutUrl (Sample.seg "image" [("summary", VStr "sticker")])] =
  warnings Sample.st0 ++
  map ImageWithoutUrl (List.filter sourceless_image (message ob_event)).
Proof.
  intros ob_event. split; [reflexivity|].
  apply (convert_chat_message_warnings Sample.config Sample.download_file
           Sample.move_to_upload_dir Sample.get_user_group_card_name Sample.unicode_lower
           ob_event false Sample.st0
           {| world := 1;
              warnings :=
                [ImageWithoutUrl (Sample.seg "image" []);
                 ImageWithoutUrl
                   (Sample.seg "image" [("summary", VStr "sticker")])] |}
           ([ChatMessageSegmentImage IMAGE "" "res0" "/uploads/res0"
               "http://x/a.png"], false)).
  reflexivity.
Defined.

Lemma convert_chat_message_fails_fast_witness :
  let ob_event := GroupMessageEvent 5 [] in
  let msg :=
    [Sample.seg "text" [("text", VStr "hi")];
     Sample.seg "image" [("url", VStr "")]] in
  let rest := [Sample.seg "image" [("url", VStr "http://x/a.png")]] in
  Sample.convert_chat_message (with_message ob_event msg) true Sample.st0 =
    (Sample.st0, Raise (OtherError "download failed")) /\
  Sample.convert_chat_message (with_message ob_event (msg ++ rest)) true
    Sample.st0 =
    (Sample.st0, Raise (OtherError "download failed")).
Proof.
  intros ob_event msg rest. split; [reflexivity|].
  apply (convert_chat_message_fails_fast Sample.config Sample.download_file
           Sample.move_to_upload_dir Sample.get_user_group_card_name Sample.unicode_lower
           ob_event msg rest true Sample.st0).
  reflexivity.
Defined.

Lemma convert_chat_message_at_outside_group_witness :
  let msg :=
    [Sample.seg "text" [("text", VStr "hi ")];
     Sample.seg "at" [("qq", VInt 42)]] in
  Exists (fun seg => type seg = "at") msg /\
  exists st' e,
    Sample.convert_chat_message (MessageEvent msg) false Sample.st0 =
      (st', Raise e).
Proof.
  cbv zeta.
  assert (Exists (fun seg => type seg = "at")
            [Sample.seg "text" [("text", VStr "hi ")];
             Sample.seg "at" [("qq", VInt 42)]]) as Hat
    by (right; left; reflexivity).
  split; [exact Hat|].
  exact (convert_chat_message_at_outside_group Sample.config
           Sample.download_file Sample.move_to_upload_dir
           Sample.get_user_group_card_name Sample.unicode_lower _ false
           Sample.st0 Hat).
Defined.

Lemma loop_body_image_local_file_witness :
  let seg := Sample.seg "image" [("file", VStr "file:/tmp/a.PNG")] in
  type seg = "image" /\
  data seg !! "url" = None /\
  data seg !! "file" = Some (VStr "file:/tmp/a.PNG") /\
  exists moved_path,
    ("file:/tmp/a.PNG" = "file:" +:+ moved_path \/
     PyStr.startswith "file:" "file:/tmp/a.PNG" = false /\
     moved_path = "file:/tmp/a.PNG") /\
    forall other_download,
      loop_body Sample.config other_download Sample.move_to_upload_dir
        Sample.get_user_group_card_name Sample.unicode_lower
        (GroupMessageEvent 5 []) ([], false) seg Sample.st0 =
      match Sample.move_to_upload_dir moved_path
              (image_suffix Sample.unicode_lower seg) (world Sample.st0) with
      | (w', Ok (local_path, file_name)) =>
          (mkState w' (warnings Sample.st0),
           Ok ([] ++
                 [ChatMessageSegmentImage IMAGE "" file_name local_path ""],
               false))
      | (w', Raise e) => (mkState w' (warnings Sample.st0), Raise e)
      end.
Proof.
  cbv zeta. split; [reflexivity|]. split; [reflexivity|]. split; [reflexivity|].
  exact (loop_body_image_local_file Sample.config Sample.move_to_upload_dir
           Sample.get_user_group_card_name Sample.unicode_lower
           (GroupMessageEvent 5 []) [] false
           (Sample.seg "image" [("file", VStr "file:/tmp/a.PNG")])
           "file:/tmp/a.PNG" Sample.st0 eq_refl eq_refl eq_refl).
Defined.


(** * Properties of the commands *)

Module CommandFacts.

Import Command.

(** ** Strings *)

Lemma length_append s1 s2 :
  String.length (s1 +:+ s2) = String.length s1 + String.length s2.
Proof. induction s1 as [|c s1 IH]; [done|]. cbn. by rewrite <- IH. Qed.

(** The text after one white space character at the start of [s]. *)
Definition leading_space (s : string) : option string :=
  match s with
  | EmptyString => None
  | String a rest1 =>
      if is_space a then Some rest1
      else match rest1 with
           | EmptyString => None
           | String b rest2 =>
               if is_space2 a b then Some rest2
               else match rest2 with
                    | EmptyString => None
                    | String c rest3 =>
                        if is_space3 a b c then Some rest3 else None
                    end
           end
  end.

Lemma lstrip_step s :
  lstrip s = match leading_space s with Some rest => lstrip rest | None => s end.
Proof.
  destruct s as [|a [|b [|c rest]]]; simpl; [done|..].
  - by destruct (is_space a).
  - destruct (is_space a); [done|]. by destruct (is_space2 a b).
  - destruct (is_space a); [done|]. destruct (is_space2 a b); [done|].
    by destruct (is_space3 a b c).
Qed.

Lemma leading_space_length s rest :
  leading_space s = Some rest -> String.length rest < String.length s.
Proof.
  destruct s as [|a [|b [|c tail]]]; simpl; [done|..].
  - destruct (is_space a); [|done]. intros [= <-]. simpl. lia.
  - destruct (is_space a); [intros [= <-]; simpl; lia|].
    destruct (is_space2 a b); [|done]. intros [= <-]. simpl. lia.
  - destruct (is_space a); [intros [= <-]; simpl; lia|].
    destruct (is_space2 a b); [intros [= <-]; simpl; lia|].
    destruct (is_space3 a b c); [|done]. intros [= <-]. simpl. lia.
Qed.

Lemma leading_space_app s rest tail :
  leading_space s = Some rest ->
  leading_space (s +:+ tail) = Some (rest +:+ tail).
Proof.
  destruct s as [|a [|b [|c more]]]; [done|..]; rewrite ?append_cons; simpl.
  - destruct (is_space a); [|done]. by intros [= <-].
  - rewrite ?append_cons. destruct (is_space a); [by intros [= <-]|].
    destruct (is_space2 a b); [|done]. by intros [= <-].
  - rewrite ?append_cons. destruct (is_space a); [by intros [= <-]|].
    destruct (is_space2 a b); [by intros [= <-]|].
    destruct (is_space3 a b c); [|done]. by intros [= <-].
Qed.

(** Induction along the steps of [lstrip]. *)
Lemma lstrip_induction (P : string -> Prop) :
  (forall s, leading_space s = None -> P s) ->
  (forall s rest, leading_space s = Some rest -> P rest -> P s) ->
  forall s, P s.
Proof.
  intros Hstop Hstep s.
  remember (String.length s) as n eqn:Hn.
  revert s Hn. induction n as [n IH] using lt_wf_ind. intros s ->.
  destruct (leading_space s) as [rest|] eqn:Hs; [|by apply Hstop].
  apply (Hstep _ _ Hs). apply (IH (String.length rest)); [|done].
  by apply leading_space_length.
Qed.

Lemma lstrip_length s : String.length (lstrip s) <= String.length s.
Proof.
  induction s as [s Hs|s rest Hs IH] using lstrip_induction;
    rewrite lstrip_step, Hs; [done|].
  apply leading_space_length in Hs. lia.
Qed.

Lemma lstrip_idempotent s : lstrip (lstrip s) = lstrip s.
Proof.
  induction s as [s Hs|s rest Hs IH] using lstrip_induction.
  - rewrite (lstrip_step s), Hs. by rewrite lstrip_step, Hs.
  - by rewrite (lstrip_step s), Hs.
Qed.

(** After white space only, the text that follows decides. *)
Lemma lstrip_app_blank s tail :
  lstrip s = "" -> lstrip (s +:+ tail) = lstrip tail.
Proof.
  induction s as [s Hs|s rest Hs IH] using lstrip_induction;
    rewrite (lstrip_step s), Hs.
  - by intros ->.
  - intros Hrest. rewrite lstrip_step, (leading_space_app _ _ _ Hs). auto.
Qed.

(** A text on which [lstrip] does nothing has no white space at the start
    of any of its prefixes. *)
Lemma lstrip_prefix s tail :
  lstrip (s +:+ tail) = s +:+ tail -> lstrip s = s.
Proof.
  intros Hfixed. rewrite (lstrip_step s).
  destruct (leading_space s) as [rest|] eqn:Hs; [exfalso|done].
  rewrite lstrip_step, (leading_space_app _ _ _ Hs) in Hfixed.
  pose proof (lstrip_length (rest +:+ tail)) as Hlen.
  rewrite Hfixed in Hlen. apply leading_space_length in Hs.
  rewrite !length_append in Hlen. lia.
Qed.

(** What [rstrip] removes is white space only. *)
Lemma rstrip_split s :
  exists tail, s = rstrip s +:+ tail /\ lstrip tail = "".
Proof.
  induction s as [|c s (tail & Hs & Htail)]; [by exists ""|].
  cbn [rstrip]. destruct (String.eqb_spec (lstrip (String c s)) "") as [Hall|_].
  - by exists (String c s).
  - exists tail. split; [|done]. rewrite append_cons. by rewrite <- Hs.
Qed.

Lemma rstrip_idempotent s : rstrip (rstrip s) = rstrip s.
Proof.
  induction s as [|c s IH]; [done|]. cbn [rstrip].
  destruct (String.eqb_spec (lstrip (String c s)) "") as [Hall|Hsome]; [done|].
  cbn [rstrip]. rewrite IH.
  destruct (String.eqb_spec (lstrip (String c (rstrip s))) "") as [Hall|_];
    [exfalso|done].
  destruct (rstrip_split s) as (tail & Hs & Htail). apply Hsome.
  rewrite Hs at 1. rewrite <- append_cons.
  by rewrite (lstrip_app_blank _ _ Hall).
Qed.

(** Stripping a stripped text changes nothing. *)
Lemma strip_idempotent s : strip (strip s) = strip s.
Proof.
  unfold strip.
  destruct (rstrip_split (lstrip s)) as (tail & Hs & _).
  assert (lstrip (rstrip (lstrip s)) = rstrip (lstrip s)) as ->.
  { apply (lstrip_prefix _ tail). rewrite <- Hs. apply lstrip_idempotent. }
  apply rstrip_idempotent.
Qed.

(** [split("=", 1)] around the first separator. *)
Lemma split1_first sep key value :
  PyStr.contains sep key = false ->
  split1 sep (key +:+ String sep value) = [key; value].
Proof.
  induction key as [|c key IH]; simpl.
  - by rewrite Ascii.eqb_refl.
  - intros [Hc Hkey]%orb_false_elim. by rewrite Hc, (IH Hkey).
Qed.

(** [split("=", 1)] of a text without the separator. *)
Lemma split1_without sep s :
  PyStr.contains sep s = false -> split1 sep s = [s].
Proof.
  induction s as [|c s IH]; simpl; [done|].
  intros [Hc Hs]%orb_false_elim. by rewrite Hc, (IH Hs).
Qed.

(** ** Association lists *)

Lemma assoc_set_keys {A} key (v : A) l :
  map fst (assoc_set key v l) = map fst l.
Proof.
  induction l as [|[k old] l IH]; simpl; [done|].
  destruct (String.eqb k key); simpl; [done|by rewrite IH].
Qed.

Lemma assoc_set_same {A} key (v old : A) l :
  assoc key l = Some old -> assoc key (assoc_set key v l) = Some v.
Proof.
  induction l as [|[k x] l IH]; simpl; [done|].
  destruct (String.eqb k key) eqn:Hk; simpl; rewrite Hk; [done|exact IH].
Qed.

Lemma assoc_set_other {A} key key' (v : A) l :
  key' <> key -> assoc key' (assoc_set key v l) = assoc key' l.
Proof.
  intros Hne. induction l as [|[k x] l IH]; simpl; [done|].
  destruct (String.eqb k key) eqn:Hk; simpl; [|by rewrite IH].
  apply String.eqb_eq in Hk as ->.
  destruct (String.eqb key key') eqn:Hk'; [|done].
  apply String.eqb_eq in Hk'. congruence.
Qed.

(** ** The guard *)

Section Facts.

Context {W F T E ChatType : Type}.
Variable get_user_id : E -> string.
Variable get_user_name : E -> string -> W -> W * result string.
Variable get_chat_info : E -> W -> W * result (string * ChatType).
Variable limited_run_code : string -> string -> W -> W * result string.
Variable push_system_message : string -> string -> W -> W * result unit.
Variable os_system : string -> W -> W * result unit.
Variable os_popen_read : string -> W -> W * result string.
Variable reset_db : option string -> W -> W * result unit.
Variable RUN_IN_DOCKER : bool.
Variable py_int : string -> result Z.
Variable py_float : string -> result F.
Variable float_str : F -> string.
Variable float_truthy : F -> bool.
Variable repr_list : list string -> string.
Variable unicode_lower : string -> string.
Variable time_at : nat -> T.
Variable over_a_minute : T -> T -> bool.

Abbreviation state := (Command.state W F T).
Abbreviation truthy := (truthy float_truthy).
Abbreviation show := (show float_str).
Abbreviation attribute := (attribute repr_list).
Abbreviation getattr := (getattr repr_list).
Abbreviation dump_get := (dump_get repr_list).
Abbreviation command_guard :=
  (command_guard get_user_id get_user_name get_chat_info float_truthy
     repr_list (T := T)).
Abbreviation exec :=
  (exec get_user_id get_user_name get_chat_info limited_run_code
     float_truthy repr_list (T := T)).
Abbreviation system :=
  (system get_user_id get_user_name get_chat_info push_system_message
     float_truthy repr_list (T := T)).
Abbreviation conf_show :=
  (conf_show get_user_id get_user_name get_chat_info float_str float_truthy
     repr_list (T := T)).
Abbreviation conf_set :=
  (conf_set get_user_id get_user_name get_chat_info py_int py_float
     float_truthy repr_list unicode_lower (T := T)).
Abbreviation docker_restart :=
  (docker_restart get_user_id get_user_name get_chat_info os_system
     RUN_IN_DOCKER float_truthy repr_list (F := F) (T := T)).
Abbreviation docker_logs :=
  (docker_logs get_user_id get_user_name get_chat_info os_popen_read
     RUN_IN_DOCKER float_truthy repr_list (F := F) (T := T)).
Abbreviation sh :=
  (sh get_user_id get_user_name get_chat_info os_popen_read float_truthy
     repr_list (F := F) (T := T)).
Abbreviation nekro_db_reset :=
  (nekro_db_reset get_user_id get_user_name get_chat_info reset_db
     float_truthy repr_list time_at over_a_minute).
Abbreviation commands :=
  (commands get_user_id get_user_name get_chat_info limited_run_code
     push_system_message os_system os_popen_read reset_db RUN_IN_DOCKER
     py_int py_float float_str float_truthy repr_list unicode_lower time_at
     over_a_minute).

Ltac run :=
  unfold bind, call, lift, ret, raise, get_config, set_config,
    get_trigger_time, set_trigger_time, time_time, setattr, finish_with,
    matcher_finish, logger_warning, with_world, with_config,
    with_trigger_time, ticked, warned, answered, result_bind in *.

(** The guard returns for a super user only, when both look-ups return;
    what it returns is the stripped argument, and it leaves the state as
    it was but for the world the look-ups acted on. *)
Lemma command_guard_returns event arg (st st1 : state) username cmd_content
    chat_key chat_type :
  command_guard event arg st =
    (st1, Return (username, cmd_content, chat_key, chat_type)) <->
  str_in (get_user_id event) (SUPER_USERS (st_config st)) = true /\
  cmd_content = strip arg /\
  exists w1,
    get_user_name event (get_user_id event) (st_world st) = (w1, Ok username) /\
    exists w2,
      get_chat_info event w1 = (w2, Ok (chat_key, chat_type)) /\
      st1 = with_world w2 st.
Proof.
  unfold Command.command_guard. run. destruct st as [w cfg trig clk warn out].
  cbn [st_world st_config DB_RESET_LATEST_TRIGGER_TIME st_clock st_warnings
       st_outbox].
  destruct (get_user_name event (get_user_id event) w) as [w1 [u|e]];
    [|split; [discriminate|by intros (_ & _ & ? & [=] & _)]].
  cbn. destruct (str_in (get_user_id event) (SUPER_USERS cfg)); cbn.
  - destruct (get_chat_info event w1) as [w2 [[k t]|e]] eqn:Hchat; cbn.
    + split.
      * intros [= <- <- <- <- <-]. split; [done|]. split; [done|].
        eexists; split; [done|]. eexists; split; [exact Hchat|done].
      * intros (_ & -> & ? & [= <- <-] & ? & Hchat' & ->).
        rewrite Hchat in Hchat'. by injection Hchat' as <- <- <-.
    + split; [discriminate|].
      intros (_ & _ & ? & [= <- <-] & ? & Hchat' & _).
      rewrite Hchat in Hchat'. discriminate.
  - split; [|by intros ([=] & _)].
    destruct (Command.getattr repr_list cfg _) as [enabled|e]; cbn;
      [destruct (Command.truthy float_truthy enabled)|]; discriminate.
Qed.

Lemma command_guard_refused event arg (st : state) :
  str_in (get_user_id event) (SUPER_USERS (st_config st)) = false ->
  exists st' end_,
    command_guard event arg st = (st', end_) /\
    (end_ = Finished \/ exists e, end_ = Raised e) /\
    st_config st' = st_config st /\
    DB_RESET_LATEST_TRIGGER_TIME st' = DB_RESET_LATEST_TRIGGER_TIME st /\
    st_clock st' = st_clock st /\
    exists r,
      get_user_name event (get_user_id event) (st_world st) = (st_world st', r).
Proof.
  intros Hrefused. unfold Command.command_guard. run.
  destruct (get_user_name event (get_user_id event) (st_world st))
    as [w1 [u|e]]; cbn; [|eauto 12].
  rewrite Hrefused. cbn.
  destruct (Command.getattr repr_list (st_config st) _) as [enabled|e]; cbn;
    [destruct (Command.truthy float_truthy enabled)|]; eauto 12.
Qed.

(** X11: for a sender who is not a super user the guard logs a warning
    and ends the handler; it answers that the user is not allowed when
    [ENABLE_COMMAND_UNAUTHORIZED_OUTPUT] is true and says nothing
    otherwise; the chat is not looked up. *)
Theorem command_guard_unauthorized event arg (st : state) w1 username enabled :
  str_in (get_user_id event) (SUPER_USERS (st_config st)) = false ->
  get_user_name event (get_user_id event) (st_world st) = (w1, Ok username) ->
  attribute (st_config st) "ENABLE_COMMAND_UNAUTHORIZED_OUTPUT" = Some enabled ->
  command_guard event arg st =
    (let st1 :=
       warned ("用户 " +:+ username +:+ " 不在允许用户中") (with_world w1 st) in
     if truthy enabled
     then answered ("用户 [" +:+ get_user_id event +:+ "]" +:+ username +:+
                    " 不在允许用户中") st1
     else st1,
     Finished).
Proof.
  intros Hrefused Hname Henabled.
  unfold Command.command_guard, Command.getattr. run.
  rewrite Hname. cbn -[Command.attribute Command.truthy].
  rewrite Hrefused. cbn -[Command.attribute Command.truthy].
  rewrite Henabled. cbn -[Command.attribute Command.truthy].
  destruct (Command.truthy float_truthy enabled); cbn; [done|].
  by rewrite app_nil_r.
Qed.

(** X12: every command starts with the guard, so for a sender who is not a
    super user it ends where the guard ends: the settings, the trigger
    time and the clock are as before, and the world is what the look-up
    of the user name left, whatever the other collaborators are. *)
Theorem commands_refuse_unauthorized event arg (st : state) name handler :
  In (name, handler) commands ->
  str_in (get_user_id event) (SUPER_USERS (st_config st)) = false ->
  exists st' end_,
    command_guard event arg st = (st', end_) /\
    (end_ = Finished /\ handler event arg st = (st', Finished) \/
     exists e, end_ = Raised e /\ handler event arg st = (st', Raised e)) /\
    st_config st' = st_config st /\
    DB_RESET_LATEST_TRIGGER_TIME st' = DB_RESET_LATEST_TRIGGER_TIME st /\
    st_clock st' = st_clock st /\
    exists r,
      get_user_name event (get_user_id event) (st_world st) = (st_world st', r).
Proof.
  intros Hin Hrefused.
  destruct (command_guard_refused event arg st Hrefused)
    as (st' & end_ & Hguard & Hend & Hframe).
  exists st', end_. split; [exact Hguard|]. split; [|exact Hframe].
  unfold Command.commands in Hin. cbn [In] in Hin.
  repeat (destruct Hin as [[= <- <-]|Hin];
          [destruct Hend as [->|[e ->]]; [left|right; exists e];
           (split; [done|]);
           unfold Command.exec, Command.system, Command.conf_show,
             Command.conf_set, Command.docker_restart, Command.docker_logs,
             Command.sh, Command.nekro_db_reset, bind at 1;
           by rewrite Hguard|]).
  done.
Qed.

(** The guard leaves the settings, the trigger time and the clock as they
    were, however it ends. *)
Lemma command_guard_frame event arg (st st' : state) end_ :
  command_guard event arg st = (st', end_) ->
  st_config st' = st_config st /\
  DB_RESET_LATEST_TRIGGER_TIME st' = DB_RESET_LATEST_TRIGGER_TIME st /\
  st_clock st' = st_clock st.
Proof.
  destruct (str_in (get_user_id event) (SUPER_USERS (st_config st))) eqn:Hin.
  - unfold Command.command_guard. run.
    destruct (get_user_name event (get_user_id event) (st_world st))
      as [w1 [u|e]]; cbn; [|by intros [= <- _]].
    rewrite Hin. cbn.
    destruct (get_chat_info event w1) as [w2 [[k t]|e]]; cbn;
      by intros [= <- _].
  - destruct (command_guard_refused event arg st Hin)
      as (st2 & end2 & -> & _ & ? & ? & ? & _).
    by intros [= <- _].
Qed.

(** ** Reading and setting the configuration *)

Lemma parse_assignment_ok cmd_content key value :
  strip cmd_content = cmd_content ->
  cmd_content = key +:+ "=" +:+ value ->
  PyStr.contains "=" key = false ->
  parse_assignment cmd_content =
    if negb (String.eqb key "") && negb (String.eqb value "")
    then Ok (key, value) else Raise AssertionError.
Proof.
  intros Hstrip -> Hkey. unfold parse_assignment. rewrite Hstrip.
  change ("=" +:+ value) with (String "="%char value).
  by rewrite (split1_first _ _ _ Hkey).
Qed.

Lemma eqb_empty_false s : s <> "" -> String.eqb s "" = false.
Proof. intros Hs. by apply String.eqb_neq. Qed.

Lemma attribute_field config key (v : pyvalue F) :
  attribute config key = Some v ->
  (forall name shown truth, v <> POther name shown truth) ->
  assoc key (fields config) = Some v.
Proof.
  unfold Command.attribute.
  destruct (String.eqb key "SUPER_USERS"); [|done].
  intros [= <-] Hv. by destruct (Hv _ _ _ eq_refl).
Qed.

Lemma attribute_setattr config key (v old : pyvalue F) :
  attribute config key = Some old ->
  (forall name shown truth, old <> POther name shown truth) ->
  attribute (mkSettings (SUPER_USERS config) (assoc_set key v (fields config)))
    key = Some v.
Proof.
  intros Hold Hscalar. pose proof (attribute_field _ _ _ Hold Hscalar) as Hfield.
  unfold Command.attribute in *. cbn.
  destruct (String.eqb key "SUPER_USERS").
  - injection Hold as <-. by destruct (Hscalar _ _ _ eq_refl).
  - by eapply assoc_set_same.
Qed.

(** X13: [conf_set key=value] on a setting that holds a bool sets it to
    [True] whatever the value is, [false], [0] and [no] included, and
    answers that the value was set. *)
Theorem conf_set_bool_is_true event arg (st st1 : state) username cmd_content
    chat_key chat_type key value old :
  command_guard event arg st =
    (st1, Return (username, cmd_content, chat_key, chat_type)) ->
  cmd_content = key +:+ "=" +:+ value ->
  PyStr.contains "=" key = false -> key <> "" -> value <> "" ->
  attribute (st_config st1) key = Some (PBool old) ->
  let config' :=
    mkSettings (SUPER_USERS (st_config st1))
      (assoc_set key (PBool true) (fields (st_config st1))) in
  conf_set event arg st =
    (answered ("已设置 `" +:+ key +:+ "` 的值为 `" +:+ value +:+ "`")
       (with_config config' st1),
     Finished) /\
  attribute config' key = Some (PBool true).
Proof.
  intros Hguard Hcmd Hsep Hkey Hvalue Hold. split.
  - pose proof Hguard as (_ & Hstrip & _)%command_guard_returns.
    unfold Command.conf_set, bind at 1. rewrite Hguard.
    rewrite (parse_assignment_ok cmd_content key value); [|
      by rewrite Hstrip, strip_idempotent|done..].
    rewrite (eqb_empty_false _ Hkey), (eqb_empty_false _ Hvalue).
    unfold Command.dump_get, Command.getattr. run. cbn -[Command.attribute].
    rewrite Hold. cbn. by rewrite (eqb_empty_false _ Hvalue).
  - by eapply attribute_setattr.
Qed.

(** X14: [conf_set] on an argument without [=] answers that the argument
    is wrong and changes nothing. *)
Theorem conf_set_without_equals event arg (st st1 : state) username cmd_content
    chat_key chat_type :
  command_guard event arg st =
    (st1, Return (username, cmd_content, chat_key, chat_type)) ->
  PyStr.contains "=" cmd_content = false ->
  conf_set event arg st =
    (answered "参数错误，请使用 `conf_set key=value` 的格式" st1, Finished).
Proof.
  intros Hguard Hsep.
  pose proof Hguard as (_ & Hstrip & _)%command_guard_returns.
  unfold Command.conf_set, bind at 1. rewrite Hguard.
  unfold parse_assignment. rewrite Hstrip, strip_idempotent, <- Hstrip.
  by rewrite (split1_without _ _ Hsep).
Qed.

(** X15: [conf_set] on an argument with an empty key or an empty value
    raises [AssertionError], which the handler does not catch: nothing is
    answered and nothing is set. *)
Theorem conf_set_empty_side event arg (st st1 : state) username cmd_content
    chat_key chat_type key value :
  command_guard event arg st =
    (st1, Return (username, cmd_content, chat_key, chat_type)) ->
  cmd_content = key +:+ "=" +:+ value ->
  PyStr.contains "=" key = false -> key = "" \/ value = "" ->
  conf_set event arg st = (st1, Raised AssertionError).
Proof.
  intros Hguard Hcmd Hsep Hempty.
  pose proof Hguard as (_ & Hstrip & _)%command_guard_returns.
  unfold Command.conf_set, bind at 1. rewrite Hguard.
  rewrite (parse_assignment_ok cmd_content key value); [|
    by rewrite Hstrip, strip_idempotent|done..].
  destruct Hempty as [-> | ->]; [done|].
  by destruct (negb (String.eqb key "")).
Qed.

Lemma assoc_set_classes key (v old : pyvalue F) l :
  assoc key l = Some old -> class_name v = class_name old ->
  map (fun kv => class_name (snd kv)) (assoc_set key v l) =
  map (fun kv => class_name (snd kv)) l.
Proof.
  intros Hold Hclass. induction l as [|[k x] l IH]; simpl in *; [done|].
  destruct (String.eqb k key); simpl.
  - injection Hold as ->. by rewrite Hclass.
  - by rewrite IH.
Qed.

Lemma construct_class c_value value (v : pyvalue F) :
  construct py_int py_float c_value value = Ok v ->
  class_name v = class_name c_value /\
  forall name shown truth, c_value <> POther name shown truth.
Proof.
  unfold construct, result_bind.
  destruct c_value; try destruct (py_int value); try destruct (py_float value);
    intros [= <-]; done.
Qed.

(** X16: however [conf_set] ends, the settings have the same fields in
    the same order, each holding a value of the class it held before; the
    super users, the trigger time and the clock are as before. *)
Theorem conf_set_keeps_shape event arg (st st' : state) end_ :
  conf_set event arg st = (st', end_) ->
  SUPER_USERS (st_config st') = SUPER_USERS (st_config st) /\
  map fst (fields (st_config st')) = map fst (fields (st_config st)) /\
  map (fun kv => class_name (snd kv)) (fields (st_config st')) =
    map (fun kv => class_name (snd kv)) (fields (st_config st)) /\
  DB_RESET_LATEST_TRIGGER_TIME st' = DB_RESET_LATEST_TRIGGER_TIME st /\
  st_clock st' = st_clock st.
Proof.
  unfold Command.conf_set, bind at 1.
  destruct (command_guard event arg st) as [st1 end1] eqn:Hguard.
  apply command_guard_frame in Hguard as (Hconfig & Htrigger & Hclock).
  rewrite <- Hconfig, <- Htrigger, <- Hclock. clear Hconfig Htrigger Hclock.
  destruct end1 as [[[[username cmd_content] chat_key] chat_type]| |e];
    [|by intros [= <- _]..].
  destruct (parse_assignment cmd_content) as [[key value]|e];
    [|by destruct e; intros [= <- _]].
  unfold Command.dump_get, Command.getattr. run. cbn -[Command.attribute].
  destruct (attribute (st_config st1) key) as [c_value|] eqn:Hattr;
    cbn -[Command.attribute]; [|by intros [= <- _]].
  assert (forall v : pyvalue F,
            construct py_int py_float c_value value = Ok v ->
            let config' :=
              mkSettings (SUPER_USERS (st_config st1))
                (assoc_set key v (fields (st_config st1))) in
            map fst (fields config') = map fst (fields (st_config st1)) /\
            map (fun kv => class_name (snd kv)) (fields config') =
              map (fun kv => class_name (snd kv)) (fields (st_config st1)))
    as Hset.
  { intros v [Hclass Hscalar]%construct_class. cbn. split.
    - apply assoc_set_keys.
    - eapply assoc_set_classes; [|exact Hclass].
      by eapply attribute_field. }
  destruct c_value as [|b|z|f|text|name shown truth];
    cbn -[Command.attribute]; rewrite ?Hattr; cbn;
    try (by intros [= <- _]).
  - intros [= <- _]. cbn. by destruct (Hset _ eq_refl).
  - destruct (py_int value) as [z'|e] eqn:Hint; cbn; intros [= <- _]; [|done].
    cbn. specialize (Hset (PInt z')). cbn in Hset. rewrite Hint in Hset.
    by destruct (Hset eq_refl).
  - destruct (py_float value) as [f'|e] eqn:Hfloat; cbn; intros [= <- _];
      [|done].
    cbn. specialize (Hset (PFloat f')). cbn in Hset. rewrite Hfloat in Hset.
    by destruct (Hset eq_refl).
  - intros [= <- _]. cbn. by destruct (Hset _ eq_refl).
Qed.

(** X17: after [conf_set key=value] on a setting that holds a string the
    setting holds the text after the first [=], and [conf_show key] shows
    it. *)
Theorem conf_set_then_conf_show event arg (st st1 : state) username
    cmd_content chat_key chat_type key value old
    event2 arg2 (st2 : state) username2 chat_key2 chat_type2 :
  command_guard event arg st =
    (st1, Return (username, cmd_content, chat_key, chat_type)) ->
  cmd_content = key +:+ "=" +:+ value ->
  PyStr.contains "=" key = false -> key <> "" -> value <> "" ->
  attribute (st_config st1) key = Some (PStr old) ->
  let st' := fst (conf_set event arg st) in
  command_guard event2 arg2 st' =
    (st2, Return (username2, key, chat_key2, chat_type2)) ->
  attribute (st_config st') key = Some (PStr value) /\
  conf_show event2 arg2 st' =
    (answered ("当前配置：" +:+ LF +:+ key +:+ "=" +:+ value) st2, Finished).
Proof.
  intros Hguard Hcmd Hsep Hkey Hvalue Hold st' Hguard2.
  assert (conf_set event arg st =
            (answered ("已设置 `" +:+ key +:+ "` 的值为 `" +:+ value +:+ "`")
               (with_config
                  (mkSettings (SUPER_USERS (st_config st1))
                     (assoc_set key (PStr value) (fields (st_config st1))))
                  st1),
             Finished)) as Hset.
  { pose proof Hguard as (_ & Hstrip & _)%command_guard_returns.
    unfold Command.conf_set, bind at 1. rewrite Hguard.
    rewrite (parse_assignment_ok cmd_content key value); [|
      by rewrite Hstrip, strip_idempotent|done..].
    rewrite (eqb_empty_false _ Hkey), (eqb_empty_false _ Hvalue).
    unfold Command.dump_get, Command.getattr. run. cbn -[Command.attribute].
    rewrite Hold. by cbn. }
  assert (attribute (st_config st') key = Some (PStr value)) as Hnew.
  { subst st'. rewrite Hset. cbn -[Command.attribute].
    by eapply attribute_setattr. }
  split; [exact Hnew|].
  pose proof Hguard2 as (_ & _ & w1 & _ & w2 & _ & Hst2)%command_guard_returns.
  unfold Command.conf_show, bind at 1. rewrite Hguard2.
  assert (st_config st2 = st_config st') as Hconfig by by rewrite Hst2.
  unfold Command.dump_get, Command.getattr. run. cbn -[Command.attribute].
  rewrite (eqb_empty_false _ Hkey), Hconfig, Hnew. cbn.
  rewrite (eqb_empty_false _ Hvalue). cbn. by rewrite Hconfig.
Qed.

(** X18: [conf_show key] answers that the setting is unknown when the
    setting exists and holds a value that is false in a test, as [0],
    [False] and the empty string are. *)
Theorem conf_show_hides_false_values event arg (st st1 : state) username key
    chat_key chat_type v :
  command_guard event arg st =
    (st1, Return (username, key, chat_key, chat_type)) ->
  key <> "" ->
  attribute (st_config st1) key = Some v -> truthy v = false ->
  conf_show event arg st =
    (answered ("未知配置 `" +:+ key +:+ "`") st1, Finished).
Proof.
  intros Hguard Hkey Hattr Hfalse.
  unfold Command.conf_show, bind at 1. rewrite Hguard.
  unfold Command.dump_get. run. cbn -[Command.attribute Command.truthy].
  rewrite (eqb_empty_false _ Hkey), Hattr. cbn -[Command.truthy].
  by rewrite Hfalse.
Qed.

(** ** The reset of the database *)

(** X19: when more than a minute has passed since the trigger time, as at
    the first use, [nekro_db_reset] only records the time of a second
    reading of the clock and asks for a confirmation; nothing is reset,
    whatever the arguments are. *)
Theorem nekro_db_reset_arms event arg (st st1 : state) username cmd_content
    chat_key chat_type :
  command_guard event arg st =
    (st1, Return (username, cmd_content, chat_key, chat_type)) ->
  over_a_minute (time_at (st_clock st1)) (DB_RESET_LATEST_TRIGGER_TIME st1)
    = true ->
  nekro_db_reset event arg st =
    (answered
       "正在准备执行数据库重置操作！确认继续重置请在 1 分钟内再次使用本命令并使用 `-y` 参数确认"
       (with_trigger_time (time_at (S (st_clock st1))) (ticked 2 st1)),
     Finished).
Proof.
  intros Hguard Hover.
  unfold Command.nekro_db_reset, bind at 1. rewrite Hguard.
  run. cbn -[PyStr.split]. by rewrite Hover.
Qed.

(** X20: within the minute, [nekro_db_reset] without [-y] among its
    arguments asks for it and resets nothing. *)
Theorem nekro_db_reset_needs_confirmation event arg (st st1 : state) username
    cmd_content chat_key chat_type :
  command_guard event arg st =
    (st1, Return (username, cmd_content, chat_key, chat_type)) ->
  over_a_minute (time_at (st_clock st1)) (DB_RESET_LATEST_TRIGGER_TIME st1)
    = false ->
  str_in "-y" (PyStr.split " " cmd_content) = false ->
  nekro_db_reset event arg st =
    (answered "请使用 `-y` 参数确认重置数据库" (ticked 1 st1), Finished).
Proof.
  intros Hguard Hover Hflag.
  unfold Command.nekro_db_reset, bind at 1. rewrite Hguard.
  run. cbn -[PyStr.split str_in]. by rewrite Hover, Hflag.
Qed.

(** The end of a confirmed reset: the database or the table is reset and
    the answer is sent, or the failure of [reset_db] escapes. *)
Definition reset_outcome (table : option string) (done_text : string)
    (st1 : state) : state * outcome unit :=
  match reset_db table (st_world st1) with
  | (w', Ok _) => (answered done_text (with_world w' (ticked 1 st1)), Finished)
  | (w', Raise e) => (with_world w' (ticked 1 st1), Raised e)
  end.

(** X21: within the minute, [nekro_db_reset -y] resets the whole database
    and [nekro_db_reset -y table] resets that table; the trigger time
    stays as it was, so the minute is still running after the reset. *)
Theorem nekro_db_reset_confirmed event arg (st st1 : state) username
    cmd_content chat_key chat_type :
  command_guard event arg st =
    (st1, Return (username, cmd_content, chat_key, chat_type)) ->
  over_a_minute (time_at (st_clock st1)) (DB_RESET_LATEST_TRIGGER_TIME st1)
    = false ->
  (cmd_content = "-y" ->
   nekro_db_reset event arg st = reset_outcome None "数据库重置完成" st1) /\
  (forall table,
     cmd_content = "-y " +:+ table -> PyStr.contains " " table = false ->
     nekro_db_reset event arg st =
       reset_outcome (Some table) ("数据表 `" +:+ table +:+ "` 重置完成") st1).
Proof.
  intros Hguard Hover. split.
  - intros ->. unfold Command.nekro_db_reset, bind at 1. rewrite Hguard.
    unfold reset_outcome. run. cbn. rewrite Hover. cbn.
    by destruct (reset_db None (st_world st1)) as [w' [[]|e]].
  - intros table -> Htable.
    unfold Command.nekro_db_reset, bind at 1. rewrite Hguard.
    change ("-y " +:+ table) with ("-y" +:+ String " "%char table).
    rewrite split_app, (split_without _ _ Htable).
    unfold reset_outcome. run. cbn. rewrite Hover. cbn.
    by destruct (reset_db (Some table) (st_world st1)) as [w' [[]|e]].
Qed.

(** X22: within the minute, [nekro_db_reset -y] followed by two arguments
    or more answers that the arguments are not valid and resets nothing. *)
Theorem nekro_db_reset_too_many event arg (st st1 : state) username cmd_content
    chat_key chat_type first rest :
  command_guard event arg st =
    (st1, Return (username, cmd_content, chat_key, chat_type)) ->
  over_a_minute (time_at (st_clock st1)) (DB_RESET_LATEST_TRIGGER_TIME st1)
    = false ->
  cmd_content = "-y " +:+ first +:+ " " +:+ rest ->
  PyStr.contains " " first = false ->
  nekro_db_reset event arg st =
    (answered "参数不合法" (ticked 1 st1), Finished).
Proof.
  intros Hguard Hover -> Hfirst.
  unfold Command.nekro_db_reset, bind at 1. rewrite Hguard.
  change ("-y " +:+ first +:+ " " +:+ rest)
    with ("-y" +:+ String " "%char (first +:+ String " "%char rest)).
  rewrite !split_app, (split_without _ _ Hfirst).
  pose proof (split_nonempty " " rest) as Hrest.
  destruct (PyStr.split " " rest) as [|piece pieces]; [done|].
  run. cbn. by rewrite Hover.
Qed.

(** X23: the two steps of a reset.  A first [nekro_db_reset], more than a
    minute after the trigger time, arms the reset; a second one with [-y],
    read by the clock within a minute of the arming, resets the whole
    database. *)
Theorem nekro_db_reset_two_steps event arg (st st1 : state) username
    cmd_content chat_key chat_type
    event2 arg2 (st2 : state) username2 chat_key2 chat_type2 :
  command_guard event arg st =
    (st1, Return (username, cmd_content, chat_key, chat_type)) ->
  over_a_minute (time_at (st_clock st1)) (DB_RESET_LATEST_TRIGGER_TIME st1)
    = true ->
  let st' := fst (nekro_db_reset event arg st) in
  command_guard event2 arg2 st' =
    (st2, Return (username2, "-y", chat_key2, chat_type2)) ->
  over_a_minute (time_at (2 + st_clock st1)) (time_at (S (st_clock st1)))
    = false ->
  st_world st' = st_world st1 /\
  nekro_db_reset event2 arg2 st' = reset_outcome None "数据库重置完成" st2.
Proof.
  intros Hguard Hover st' Hguard2 Hwithin.
  assert (st' =
            answered
              "正在准备执行数据库重置操作！确认继续重置请在 1 分钟内再次使用本命令并使用 `-y` 参数确认"
              (with_trigger_time (time_at (S (st_clock st1))) (ticked 2 st1)))
    as Hst'.
  { subst st'. unfold Command.nekro_db_reset, bind at 1. rewrite Hguard.
    run. cbn -[PyStr.split]. by rewrite Hover. }
  split; [by rewrite Hst'|].
  pose proof Hguard2 as (_ & _ & w1 & _ & w2 & _ & Hst2)%command_guard_returns.
  assert (over_a_minute (time_at (st_clock st2))
            (DB_RESET_LATEST_TRIGGER_TIME st2) = false) as Hover2.
  { rewrite Hst2, Hst'. exact Hwithin. }
  unfold Command.nekro_db_reset, bind at 1. rewrite Hguard2.
  unfold reset_outcome. run. cbn. rewrite Hover2. cbn.
  by destruct (reset_db None (st_world st2)) as [w' [[]|e]].
Qed.

(** ** The container commands *)

(** X24: outside a container, [docker_restart] and [docker_logs] answer
    that they cannot run and call neither [os.system] nor [os.popen]. *)
Theorem docker_commands_outside_docker event arg (st st1 : state) username
    cmd_content chat_key chat_type :
  RUN_IN_DOCKER = false ->
  command_guard event arg st =
    (st1, Return (username, cmd_content, chat_key, chat_type)) ->
  docker_restart event arg st =
    (answered "当前环境不在 Docker 容器中，无法执行此操作" st1, Finished) /\
  docker_logs event arg st =
    (answered "当前环境不在 Docker 容器中，无法执行此操作" st1, Finished).
Proof.
  intros Hdocker Hguard.
  unfold Command.docker_restart, Command.docker_logs, bind at 1 3.
  rewrite Hguard, Hdocker. by run.
Qed.

(** ** The list of the settings and the classes of their values *)

Lemma drop_append p s : PyStr.drop (String.length p) (p +:+ s) = s.
Proof. induction p as [|c p IH]; [by destruct s|exact IH]. Qed.

Lemma substring_append s1 s2 :
  String.substring 0 (String.length s1) (s1 +:+ s2) = s1.
Proof.
  induction s1 as [|c s1 IH]; [by destruct s2|].
  rewrite append_cons. cbn. by rewrite IH.
Qed.

(** [str(type(v))[8:-2]] is the name of the class of [v]. *)
Lemma type_str_slice (v : pyvalue F) :
  drop_last 2 (PyStr.drop 8 (type_str v)) = class_name v.
Proof.
  unfold type_str, drop_last.
  rewrite (drop_append "<class '"), length_append. cbn [String.length].
  replace (String.length (class_name v) + 2 - 2)
    with (String.length (class_name v)) by lia.
  apply substring_append.
Qed.

Lemma assoc_in {A} key (v : A) l :
  NoDup (map fst l) -> In (key, v) l -> assoc key l = Some v.
Proof.
  induction l as [|[k x] l IH]; [done|]. cbn.
  intros [Hk Hl]%NoDup_cons [[= -> ->]|Hin].
  - by rewrite String.eqb_refl.
  - destruct (String.eqb k key) eqn:Hkey; [|by apply IH].
    apply String.eqb_eq in Hkey as ->. destruct Hk.
    apply list_elem_of_In, in_map_iff. by exists (key, v).
Qed.

Lemma config_lines_listed config (sub : list (string * pyvalue F)) :
  (forall k v, In (k, v) sub -> attribute config k = Some v) ->
  config_lines repr_list config
    (map fst
       (List.filter
          (fun '(k, v) => isinstance_any v [Cint; Cfloat; Cbool; Cstr]) sub)) =
  Ok (map (fun '(k, v) => "- " +:+ k +:+ " (" +:+ class_name v +:+ ")")
        (List.filter
           (fun '(k, v) => isinstance_any v [Cint; Cfloat; Cbool; Cstr]) sub)).
Proof.
  induction sub as [|[k v] sub IH]; intros Hsub; [done|]. cbn [List.filter].
  assert (forall k v, In (k, v) sub -> attribute config k = Some v) as Hrest
    by (intros; apply Hsub; by right).
  destruct (isinstance_any v _); [|by apply IH].
  cbn [map fst config_lines]. unfold Command.getattr, result_bind.
  rewrite (Hsub k v) by (by left). rewrite (IH Hrest).
  by rewrite type_str_slice.
Qed.

(** X25: [conf_show] without an argument lists the settings that hold an
    [int], a [float], a [bool] or a [str], in the order of the settings,
    each with the name of the class of its value. *)
Theorem conf_show_lists_modifiable event arg (st st1 : state) username
    chat_key chat_type :
  command_guard event arg st =
    (st1, Return (username, "", chat_key, chat_type)) ->
  NoDup (map fst (fields (st_config st1))) ->
  ~ In "SUPER_USERS" (map fst (fields (st_config st1))) ->
  conf_show event arg st =
    (answered
       ("当前支持动态修改配置：" +:+ LF +:+
        String.concat LF
          (map (fun '(k, v) => "- " +:+ k +:+ " (" +:+ class_name v +:+ ")")
             (List.filter
                (fun '(k, v) => isinstance_any v [Cint; Cfloat; Cbool; Cstr])
                (fields (st_config st1) : list (string * pyvalue F)))))
       st1,
     Finished).
Proof.
  intros Hguard Hnodup Hsuper.
  unfold Command.conf_show, bind at 1. rewrite Hguard.
  unfold modifiable_config_key. run. cbn -[config_lines List.filter].
  rewrite config_lines_listed; [done|].
  intros k v Hin. unfold Command.attribute.
  destruct (String.eqb k "SUPER_USERS") eqn:Hk.
  - apply String.eqb_eq in Hk as ->. destruct Hsuper.
    apply in_map_iff. by exists ("SUPER_USERS", v).
  - by apply assoc_in.
Qed.

(** X26: [conf_set key=value] on a setting that holds an [int] stores
    [int(value)]; when [int(value)] raises, the exception escapes the
    handler, nothing is answered and nothing is set. *)
Theorem conf_set_int event arg (st st1 : state) username cmd_content
    chat_key chat_type key value old :
  command_guard event arg st =
    (st1, Return (username, cmd_content, chat_key, chat_type)) ->
  cmd_content = key +:+ "=" +:+ value ->
  PyStr.contains "=" key = false -> key <> "" -> value <> "" ->
  attribute (st_config st1) key = Some (PInt old) ->
  conf_set event arg st =
    match py_int value with
    | Ok z =>
        (answered ("已设置 `" +:+ key +:+ "` 的值为 `" +:+ value +:+ "`")
           (with_config
              (mkSettings (SUPER_USERS (st_config st1))
                 (assoc_set key (PInt z) (fields (st_config st1))))
              st1),
         Finished)
    | Raise e => (st1, Raised e)
    end.
Proof.
  intros Hguard Hcmd Hsep Hkey Hvalue Hold.
  pose proof Hguard as (_ & Hstrip & _)%command_guard_returns.
  unfold Command.conf_set, bind at 1. rewrite Hguard.
  rewrite (parse_assignment_ok cmd_content key value); [|
    by rewrite Hstrip, strip_idempotent|done..].
  rewrite (eqb_empty_false _ Hkey), (eqb_empty_false _ Hvalue).
  unfold Command.dump_get, Command.getattr. run. cbn -[Command.attribute].
  rewrite Hold. cbn. destruct (py_int value) as [z|e]; cbn; [done|].
  by destruct st1.
Qed.

(** X27: [conf_set key=value] changes nothing when the settings have no
    field [key] or the field holds [None], and it answers that the setting
    is unknown; it changes nothing either when the field holds an object
    of another class, and answers with that class. *)
Theorem conf_set_refuses event arg (st st1 : state) username cmd_content
    chat_key chat_type key value :
  command_guard event arg st =
    (st1, Return (username, cmd_content, chat_key, chat_type)) ->
  cmd_content = key +:+ "=" +:+ value ->
  PyStr.contains "=" key = false -> key <> "" -> value <> "" ->
  (attribute (st_config st1) key = None \/
   attribute (st_config st1) key = Some PNone ->
   conf_set event arg st =
     (answered ("未知配置: `" +:+ key +:+ "`") st1, Finished)) /\
  (forall name shown truth,
     attribute (st_config st1) key = Some (POther name shown truth) ->
     conf_set event arg st =
       (answered ("不支持动态修改的配置类型 `<class '" +:+ name +:+ "'>`") st1,
        Finished)).
Proof.
  intros Hguard Hcmd Hsep Hkey Hvalue.
  pose proof Hguard as (_ & Hstrip & _)%command_guard_returns.
  assert (parse_assignment cmd_content = Ok (key, value)) as Hparse.
  { rewrite (parse_assignment_ok cmd_content key value); [|
      by rewrite Hstrip, strip_idempotent|done..].
    by rewrite (eqb_empty_false _ Hkey), (eqb_empty_false _ Hvalue). }
  split.
  - intros Hattr. unfold Command.conf_set, bind at 1.
    rewrite Hguard, Hparse. unfold Command.dump_get. run.
    cbn -[Command.attribute]. by destruct Hattr as [-> | ->].
  - intros name shown truth Hattr. unfold Command.conf_set, bind at 1.
    rewrite Hguard, Hparse. unfold Command.dump_get, Command.getattr. run.
    cbn -[Command.attribute]. rewrite Hattr. cbn. unfold type_str.
    cbn [class_name]. by rewrite !append_assoc.
Qed.

End Facts.

(** ** The properties on the sample deployment *)

Lemma command_guard_unauthorized_witness :
  str_in "101" (SUPER_USERS (st_config CommandSample.st0)) = false /\
  CommandSample.get_user_name "101" "101" (st_world CommandSample.st0) =
    ([], Ok "user-101") /\
  attribute CommandSample.repr_list (st_config CommandSample.st0)
    "ENABLE_COMMAND_UNAUTHORIZED_OUTPUT" = Some (PBool false) /\
  CommandSample.command_guard "101" "rm -rf /" CommandSample.st0 =
    (warned "用户 user-101 不在允许用户中" CommandSample.st0, Finished).
Proof.
  split; [reflexivity|]. split; [reflexivity|]. split; [reflexivity|].
  apply (command_guard_unauthorized CommandSample.get_user_id
           CommandSample.get_user_name CommandSample.get_chat_info
           CommandSample.float_truthy CommandSample.repr_list
           "101" "rm -rf /" CommandSample.st0 [] "user-101" (PBool false));
    reflexivity.
Defined.

Lemma commands_refuse_unauthorized_witness :
  In ("sh", CommandSample.sh)
    (commands CommandSample.get_user_id CommandSample.get_user_name
       CommandSample.get_chat_info CommandSample.limited_run_code
       CommandSample.push_system_message CommandSample.os_system
       CommandSample.os_popen_read CommandSample.reset_db true
       CommandSample.py_int CommandSample.py_float CommandSample.float_str
       CommandSample.float_truthy CommandSample.repr_list Sample.unicode_lower
       CommandSample.time_at CommandSample.over_a_minute) /\
  str_in "101" (SUPER_USERS (st_config CommandSample.st0)) = false /\
  exists st' end_,
    CommandSample.command_guard "101" "rm -rf /" CommandSample.st0 =
      (st', end_) /\
    (end_ = Finished /\
     CommandSample.sh "101" "rm -rf /" CommandSample.st0 = (st', Finished) \/
     exists e,
       end_ = Raised e /\
       CommandSample.sh "101" "rm -rf /" CommandSample.st0 = (st', Raised e)) /\
    st_config st' = st_config CommandSample.st0 /\
    DB_RESET_LATEST_TRIGGER_TIME st' =
      DB_RESET_LATEST_TRIGGER_TIME CommandSample.st0 /\
    st_clock st' = st_clock CommandSample.st0 /\
    exists r,
      CommandSample.get_user_name "101" "101" (st_world CommandSample.st0) =
        (st_world st', r).
Proof.
  assert (In ("sh", CommandSample.sh)
            (commands CommandSample.get_user_id CommandSample.get_user_name
               CommandSample.get_chat_info CommandSample.limited_run_code
               CommandSample.push_system_message CommandSample.os_system
               CommandSample.os_popen_read CommandSample.reset_db true
               CommandSample.py_int CommandSample.py_float
               CommandSample.float_str CommandSample.float_truthy
               CommandSample.repr_list Sample.unicode_lower CommandSample.time_at
               CommandSample.over_a_minute)) as Hin
    by (do 10 right; left; reflexivity).
  split; [exact Hin|]. split; [reflexivity|].
  apply (commands_refuse_unauthorized CommandSample.get_user_id
           CommandSample.get_user_name CommandSample.get_chat_info
           CommandSample.limited_run_code CommandSample.push_system_message
           CommandSample.os_system CommandSample.os_popen_read
           CommandSample.reset_db true CommandSample.py_int
           CommandSample.py_float CommandSample.float_str
           CommandSample.float_truthy CommandSample.repr_list Sample.unicode_lower
           CommandSample.time_at CommandSample.over_a_minute
           "101" "rm -rf /" CommandSample.st0 "sh" CommandSample.sh Hin).
  reflexivity.
Defined.

Lemma conf_set_bool_is_true_witness :
  let arg := " ENABLE_COMMAND_UNAUTHORIZED_OUTPUT=false " in
  let key := "ENABLE_COMMAND_UNAUTHORIZED_OUTPUT" in
  CommandSample.command_guard "100" arg CommandSample.st0 =
    (CommandSample.st0,
     Return ("user-100", key +:+ "=" +:+ "false", "group_7", true)) /\
  attribute CommandSample.repr_list (st_config CommandSample.st0) key =
    Some (PBool false) /\
  st_outbox (fst (CommandSample.conf_set "100" arg CommandSample.st0)) =
    ["[Opt Output] 已设置 `ENABLE_COMMAND_UNAUTHORIZED_OUTPUT` 的值为 `false`"] /\
  attribute CommandSample.repr_list
    (st_config (fst (CommandSample.conf_set "100" arg CommandSample.st0))) key =
    Some (PBool true).
Proof.
  intros arg key. split; [reflexivity|]. split; [reflexivity|].
  destruct (conf_set_bool_is_true CommandSample.get_user_id
              CommandSample.get_user_name CommandSample.get_chat_info
              CommandSample.py_int CommandSample.py_float
              CommandSample.float_truthy CommandSample.repr_list Sample.unicode_lower
              "100" arg CommandSample.st0 CommandSample.st0 "user-100"
              (key +:+ "=" +:+ "false") "group_7" true key "false" false
              eq_refl eq_refl eq_refl ltac:(discriminate) ltac:(discriminate)
              eq_refl) as [Hrun Hattr].
  unfold CommandSample.conf_set. rewrite Hrun. split; reflexivity.
Defined.

Lemma conf_set_without_equals_witness :
  CommandSample.command_guard "100" "AI_CHAT_PRESET_NAME" CommandSample.st0 =
    (CommandSample.st0,
     Return ("user-100", "AI_CHAT_PRESET_NAME", "group_7", true)) /\
  PyStr.contains "=" "AI_CHAT_PRESET_NAME" = false /\
  CommandSample.conf_set "100" "AI_CHAT_PRESET_NAME" CommandSample.st0 =
    (answered "参数错误，请使用 `conf_set key=value` 的格式" CommandSample.st0,
     Finished).
Proof.
  split; [reflexivity|]. split; [reflexivity|].
  apply (conf_set_without_equals CommandSample.get_user_id
           CommandSample.get_user_name CommandSample.get_chat_info
           CommandSample.py_int CommandSample.py_float
           CommandSample.float_truthy CommandSample.repr_list Sample.unicode_lower
           "100" "AI_CHAT_PRESET_NAME" CommandSample.st0 CommandSample.st0
           "user-100" "AI_CHAT_PRESET_NAME" "group_7" true);
    reflexivity.
Defined.

Lemma conf_set_empty_side_witness :
  CommandSample.command_guard "100" "AI_CHAT_PRESET_NAME=" CommandSample.st0 =
    (CommandSample.st0,
     Return ("user-100", "AI_CHAT_PRESET_NAME" +:+ "=" +:+ "", "group_7", true)) /\
  PyStr.contains "=" "AI_CHAT_PRESET_NAME" = false /\
  CommandSample.conf_set "100" "AI_CHAT_PRESET_NAME=" CommandSample.st0 =
    (CommandSample.st0, Raised AssertionError).
Proof.
  split; [reflexivity|]. split; [reflexivity|].
  apply (conf_set_empty_side CommandSample.get_user_id
           CommandSample.get_user_name CommandSample.get_chat_info
           CommandSample.py_int CommandSample.py_float
           CommandSample.float_truthy CommandSample.repr_list Sample.unicode_lower
           "100" "AI_CHAT_PRESET_NAME=" CommandSample.st0 CommandSample.st0
           "user-100" ("AI_CHAT_PRESET_NAME" +:+ "=" +:+ "") "group_7" true
           "AI_CHAT_PRESET_NAME" "");
    [reflexivity|reflexivity|reflexivity|by right].
Defined.

Lemma conf_set_keeps_shape_witness :
  let run :=
    CommandSample.conf_set "100" "SANDBOX_RUNNING_TIMEOUT=2" CommandSample.st0 in
  assoc "SANDBOX_RUNNING_TIMEOUT" (fields (st_config (fst run))) =
    Some (PInt 2) /\
  SUPER_USERS (st_config (fst run)) =
    SUPER_USERS (st_config CommandSample.st0) /\
  map fst (fields (st_config (fst run))) =
    map fst (fields (st_config CommandSample.st0)) /\
  map (fun kv => class_name (snd kv)) (fields (st_config (fst run))) =
    map (fun kv => class_name (snd kv)) (fields (st_config CommandSample.st0)) /\
  DB_RESET_LATEST_TRIGGER_TIME (fst run) =
    DB_RESET_LATEST_TRIGGER_TIME CommandSample.st0 /\
  st_clock (fst run) = st_clock CommandSample.st0.
Proof.
  intros run. split; [reflexivity|].
  apply (conf_set_keeps_shape CommandSample.get_user_id
           CommandSample.get_user_name CommandSample.get_chat_info
           CommandSample.py_int CommandSample.py_float
           CommandSample.float_truthy CommandSample.repr_list Sample.unicode_lower
           "100" "SANDBOX_RUNNING_TIMEOUT=2" CommandSample.st0 (fst run)
           (snd run)).
  reflexivity.
Defined.

Lemma conf_set_then_conf_show_witness :
  let arg := "AI_CHAT_PRESET_NAME=Mio = the cat" in
  let st' := fst (CommandSample.conf_set "100" arg CommandSample.st0) in
  CommandSample.command_guard "100" arg CommandSample.st0 =
    (CommandSample.st0,
     Return ("user-100", "AI_CHAT_PRESET_NAME" +:+ "=" +:+ "Mio = the cat",
             "group_7", true)) /\
  attribute CommandSample.repr_list (st_config CommandSample.st0)
    "AI_CHAT_PRESET_NAME" = Some (PStr "Neko") /\
  CommandSample.command_guard "100" "AI_CHAT_PRESET_NAME" st' =
    (st', Return ("user-100", "AI_CHAT_PRESET_NAME", "group_7", true)) /\
  attribute CommandSample.repr_list (st_config st') "AI_CHAT_PRESET_NAME" =
    Some (PStr "Mio = the cat") /\
  CommandSample.conf_show "100" "AI_CHAT_PRESET_NAME" st' =
    (answered ("当前配置：" +:+ LF +:+ "AI_CHAT_PRESET_NAME" +:+ "=" +:+
               "Mio = the cat") st',
     Finished).
Proof.
  intros arg st'. split; [reflexivity|]. split; [reflexivity|].
  split; [reflexivity|].
  apply (conf_set_then_conf_show CommandSample.get_user_id
           CommandSample.get_user_name CommandSample.get_chat_info
           CommandSample.py_int CommandSample.py_float
           CommandSample.float_str CommandSample.float_truthy
           CommandSample.repr_list Sample.unicode_lower
           "100" arg CommandSample.st0 CommandSample.st0 "user-100"
           ("AI_CHAT_PRESET_NAME" +:+ "=" +:+ "Mio = the cat") "group_7" true
           "AI_CHAT_PRESET_NAME" "Mio = the cat" "Neko"
           "100" "AI_CHAT_PRESET_NAME" st' "user-100" "group_7" true);
    try reflexivity; discriminate.
Defined.

Lemma conf_show_hides_false_values_witness :
  CommandSample.command_guard "100" "AI_DEBOUNCE_WAIT_SECONDS"
    CommandSample.st0 =
    (CommandSample.st0,
     Return ("user-100", "AI_DEBOUNCE_WAIT_SECONDS", "group_7", true)) /\
  attribute CommandSample.repr_list (st_config CommandSample.st0)
    "AI_DEBOUNCE_WAIT_SECONDS" = Some (PInt 0) /\
  truthy CommandSample.float_truthy (PInt 0) = false /\
  CommandSample.conf_show "100" "AI_DEBOUNCE_WAIT_SECONDS" CommandSample.st0 =
    (answered "未知配置 `AI_DEBOUNCE_WAIT_SECONDS`" CommandSample.st0, Finished).
Proof.
  split; [reflexivity|]. split; [reflexivity|]. split; [reflexivity|].
  apply (conf_show_hides_false_values CommandSample.get_user_id
           CommandSample.get_user_name CommandSample.get_chat_info
           CommandSample.float_str CommandSample.float_truthy
           CommandSample.repr_list
           "100" "AI_DEBOUNCE_WAIT_SECONDS" CommandSample.st0
           CommandSample.st0 "user-100" "AI_DEBOUNCE_WAIT_SECONDS" "group_7"
           true (PInt 0));
    try reflexivity; discriminate.
Defined.

Lemma nekro_db_reset_arms_witness :
  CommandSample.command_guard "100" "-y" CommandSample.st0 =
    (CommandSample.st0, Return ("user-100", "-y", "group_7", true)) /\
  CommandSample.over_a_minute
    (CommandSample.time_at (st_clock CommandSample.st0))
    (DB_RESET_LATEST_TRIGGER_TIME CommandSample.st0) = true /\
  CommandSample.nekro_db_reset "100" "-y" CommandSample.st0 =
    (answered
       "正在准备执行数据库重置操作！确认继续重置请在 1 分钟内再次使用本命令并使用 `-y` 参数确认"
       (with_trigger_time 1010%Z (ticked 2 CommandSample.st0)),
     Finished).
Proof.
  split; [reflexivity|]. split; [reflexivity|].
  apply (nekro_db_reset_arms CommandSample.get_user_id
           CommandSample.get_user_name CommandSample.get_chat_info
           CommandSample.reset_db CommandSample.float_truthy
           CommandSample.repr_list CommandSample.time_at
           CommandSample.over_a_minute
           "100" "-y" CommandSample.st0 CommandSample.st0 "user-100" "-y"
           "group_7" true);
    reflexivity.
Defined.

Lemma nekro_db_reset_needs_confirmation_witness :
  let armed :=
    fst (CommandSample.nekro_db_reset "100" "" CommandSample.st0) in
  CommandSample.command_guard "100" "users" armed =
    (armed, Return ("user-100", "users", "group_7", true)) /\
  CommandSample.over_a_minute (CommandSample.time_at (st_clock armed))
    (DB_RESET_LATEST_TRIGGER_TIME armed) = false /\
  str_in "-y" (PyStr.split " " "users") = false /\
  CommandSample.nekro_db_reset "100" "users" armed =
    (answered "请使用 `-y` 参数确认重置数据库" (ticked 1 armed), Finished).
Proof.
  intros armed. split; [reflexivity|]. split; [reflexivity|].
  split; [reflexivity|].
  apply (nekro_db_reset_needs_confirmation CommandSample.get_user_id
           CommandSample.get_user_name CommandSample.get_chat_info
           CommandSample.reset_db CommandSample.float_truthy
           CommandSample.repr_list CommandSample.time_at
           CommandSample.over_a_minute
           "100" "users" armed armed "user-100" "users" "group_7" true);
    reflexivity.
Defined.

Lemma nekro_db_reset_confirmed_witness :
  let armed :=
    fst (CommandSample.nekro_db_reset "100" "" CommandSample.st0) in
  CommandSample.command_guard "100" "-y users" armed =
    (armed, Return ("user-100", "-y " +:+ "users", "group_7", true)) /\
  CommandSample.over_a_minute (CommandSample.time_at (st_clock armed))
    (DB_RESET_LATEST_TRIGGER_TIME armed) = false /\
  PyStr.contains " " "users" = false /\
  CommandSample.nekro_db_reset "100" "-y users" armed =
    reset_outcome CommandSample.reset_db (Some "users")
      ("数据表 `" +:+ "users" +:+ "` 重置完成") armed /\
  st_world (fst (CommandSample.nekro_db_reset "100" "-y users" armed)) =
    ["reset_db users"].
Proof.
  intros armed. split; [reflexivity|]. split; [reflexivity|].
  split; [reflexivity|]. split; [|reflexivity].
  apply (nekro_db_reset_confirmed CommandSample.get_user_id
           CommandSample.get_user_name CommandSample.get_chat_info
           CommandSample.reset_db CommandSample.float_truthy
           CommandSample.repr_list CommandSample.time_at
           CommandSample.over_a_minute
           "100" "-y users" armed armed "user-100" ("-y " +:+ "users")
           "group_7" true);
    reflexivity.
Defined.

Lemma nekro_db_reset_too_many_witness :
  let armed :=
    fst (CommandSample.nekro_db_reset "100" "" CommandSample.st0) in
  CommandSample.command_guard "100" "-y users now" armed =
    (armed,
     Return ("user-100", "-y " +:+ "users" +:+ " " +:+ "now", "group_7", true)) /\
  CommandSample.over_a_minute (CommandSample.time_at (st_clock armed))
    (DB_RESET_LATEST_TRIGGER_TIME armed) = false /\
  PyStr.contains " " "users" = false /\
  CommandSample.nekro_db_reset "100" "-y users now" armed =
    (answered "参数不合法" (ticked 1 armed), Finished).
Proof.
  intros armed. split; [reflexivity|]. split; [reflexivity|].
  split; [reflexivity|].
  apply (nekro_db_reset_too_many CommandSample.get_user_id
           CommandSample.get_user_name CommandSample.get_chat_info
           CommandSample.reset_db CommandSample.float_truthy
           CommandSample.repr_list CommandSample.time_at
           CommandSample.over_a_minute
           "100" "-y users now" armed armed "user-100"
           ("-y " +:+ "users" +:+ " " +:+ "now") "group_7" true "users" "now");
    reflexivity.
Defined.

Lemma nekro_db_reset_two_steps_witness :
  let st' := fst (CommandSample.nekro_db_reset "100" "-y" CommandSample.st0) in
  CommandSample.command_guard "100" "-y" CommandSample.st0 =
    (CommandSample.st0, Return ("user-100", "-y", "group_7", true)) /\
  CommandSample.over_a_minute
    (CommandSample.time_at (st_clock CommandSample.st0))
    (DB_RESET_LATEST_TRIGGER_TIME CommandSample.st0) = true /\
  CommandSample.command_guard "100" " -y " st' =
    (st', Return ("user-100", "-y", "group_7", true)) /\
  CommandSample.over_a_minute
    (CommandSample.time_at (2 + st_clock CommandSample.st0))
    (CommandSample.time_at (S (st_clock CommandSample.st0))) = false /\
  st_world st' = st_world CommandSample.st0 /\
  CommandSample.nekro_db_reset "100" " -y " st' =
    reset_outcome CommandSample.reset_db None "数据库重置完成" st'.
Proof.
  intros st'. split; [reflexivity|]. split; [reflexivity|].
  split; [reflexivity|]. split; [reflexivity|].
  apply (nekro_db_reset_two_steps CommandSample.get_user_id
           CommandSample.get_user_name CommandSample.get_chat_info
           CommandSample.reset_db CommandSample.float_truthy
           CommandSample.repr_list CommandSample.time_at
           CommandSample.over_a_minute
           "100" "-y" CommandSample.st0 CommandSample.st0 "user-100" "-y"
           "group_7" true "100" " -y " st' "user-100" "group_7" true);
    reflexivity.
Defined.

Lemma docker_commands_outside_docker_witness :
  CommandSample.command_guard "100" "nekro_agent; reboot" CommandSample.st0 =
    (CommandSample.st0,
     Return ("user-100", "nekro_agent; reboot", "group_7", true)) /\
  CommandSample.docker_restart false "100" "nekro_agent; reboot"
    CommandSample.st0 =
    (answered "当前环境不在 Docker 容器中，无法执行此操作" CommandSample.st0,
     Finished).
Proof.
  split; [reflexivity|].
  apply (docker_commands_outside_docker CommandSample.get_user_id
           CommandSample.get_user_name CommandSample.get_chat_info
           CommandSample.os_system CommandSample.os_popen_read false
           CommandSample.float_truthy CommandSample.repr_list
           "100" "nekro_agent; reboot" CommandSample.st0 CommandSample.st0
           "user-100" "nekro_agent; reboot" "group_7" true (T := Z));
    reflexivity.
Defined.

Lemma conf_show_lists_modifiable_witness :
  CommandSample.command_guard "100" "  " CommandSample.st0 =
    (CommandSample.st0, Return ("user-100", "", "group_7", true)) /\
  NoDup (map fst (fields (st_config CommandSample.st0))) /\
  ~ In "SUPER_USERS" (map fst (fields (st_config CommandSample.st0))) /\
  CommandSample.conf_show "100" "  " CommandSample.st0 =
    (answered
       ("当前支持动态修改配置：" +:+ LF +:+
        String.concat LF
          ["- AI_CHAT_PRESET_NAME (str)";
           "- ENABLE_COMMAND_UNAUTHORIZED_OUTPUT (bool)";
           "- AI_DEBOUNCE_WAIT_SECONDS (int)";
           "- SANDBOX_RUNNING_TIMEOUT (int)"])
       CommandSample.st0,
     Finished).
Proof.
  assert (NoDup (map fst (fields (st_config CommandSample.st0)))) as Hnodup.
  { apply (bool_decide_unpack (NoDup _)). vm_compute. exact I. }
  assert (~ In "SUPER_USERS" (map fst (fields (st_config CommandSample.st0))))
    as Hsuper.
  { cbn. intros [H|[H|[H|[H|[H|[]]]]]]; discriminate H. }
  split; [reflexivity|]. split; [exact Hnodup|]. split; [exact Hsuper|].
  apply (conf_show_lists_modifiable CommandSample.get_user_id
           CommandSample.get_user_name CommandSample.get_chat_info
           CommandSample.float_str CommandSample.float_truthy
           CommandSample.repr_list
           "100" "  " CommandSample.st0 CommandSample.st0 "user-100"
           "group_7" true eq_refl Hnodup Hsuper).
Defined.

Lemma conf_set_int_witness :
  CommandSample.command_guard "100" "SANDBOX_RUNNING_TIMEOUT=x"
    CommandSample.st0 =
    (CommandSample.st0,
     Return ("user-100", "SANDBOX_RUNNING_TIMEOUT" +:+ "=" +:+ "x",
             "group_7", true)) /\
  attribute CommandSample.repr_list (st_config CommandSample.st0)
    "SANDBOX_RUNNING_TIMEOUT" = Some (PInt 60) /\
  CommandSample.conf_set "100" "SANDBOX_RUNNING_TIMEOUT=x" CommandSample.st0 =
    (CommandSample.st0, Raised ValueError).
Proof.
  split; [reflexivity|]. split; [reflexivity|].
  apply (conf_set_int CommandSample.get_user_id
           CommandSample.get_user_name CommandSample.get_chat_info
           CommandSample.py_int CommandSample.py_float
           CommandSample.float_truthy CommandSample.repr_list Sample.unicode_lower
           "100" "SANDBOX_RUNNING_TIMEOUT=x" CommandSample.st0
           CommandSample.st0 "user-100"
           ("SANDBOX_RUNNING_TIMEOUT" +:+ "=" +:+ "x") "group_7" true
           "SANDBOX_RUNNING_TIMEOUT" "x" 60%Z);
    try reflexivity; discriminate.
Defined.

Lemma conf_set_refuses_witness :
  CommandSample.command_guard "100" "MODEL_GROUPS=x" CommandSample.st0 =
    (CommandSample.st0,
     Return ("user-100", "MODEL_GROUPS" +:+ "=" +:+ "x", "group_7", true)) /\
  attribute CommandSample.repr_list (st_config CommandSample.st0)
    "MODEL_GROUPS" = Some (POther "dict" "{}" false) /\
  CommandSample.conf_set "100" "MODEL_GROUPS=x" CommandSample.st0 =
    (answered ("不支持动态修改的配置类型 `<class '" +:+ "dict" +:+ "'>`")
       CommandSample.st0,
     Finished).
Proof.
  split; [reflexivity|]. split; [reflexivity|].
  apply (proj2 (conf_set_refuses CommandSample.get_user_id
                  CommandSample.get_user_name CommandSample.get_chat_info
                  CommandSample.py_int CommandSample.py_float
                  CommandSample.float_truthy CommandSample.repr_list Sample.unicode_lower
                  "100" "MODEL_GROUPS=x" CommandSample.st0 CommandSample.st0
                  "user-100" ("MODEL_GROUPS" +:+ "=" +:+ "x") "group_7" true
                  "MODEL_GROUPS" "x" eq_refl eq_refl eq_refl
                  ltac:(discriminate) ltac:(discriminate))
           "dict" "{}" false).
  reflexivity.
Defined.

End CommandFacts.
